(** * prometheus-machine: configuration rendering, reconciliation handlers
      and the status probe, embedded from
      [lib/prometheus_config.py], [lib/prometheus_installer.py] and
      [src/charm.py]. *)

From Stdlib Require Import ZArith String Ascii List Bool Lia DecimalString.
From stdpp Require Import base option list strings gmap.
Import ListNotations.

Local Open Scope string_scope.
Local Open Scope list_scope.

(** ** Python values

    The data that reaches the charm is JSON-shaped relation data and typed
    Juju configuration.  Dictionaries keep their insertion order (it is the
    order [yaml.dump(..., sort_keys=False)] emits), so a dict is an
    association list; lookups take the first binding of a key.  Floating
    point numbers are left out. *)

#[local] Set Warnings "-register-all".

Inductive pyval : Type :=
| PNone
| PBool (b : bool)
| PInt (n : Z)
| PStr (s : string)
| PList (l : list pyval)
| PDict (d : list (string * pyval)).

(** Exceptions the modelled code can meet. *)
Inductive exn : Type :=
| AttributeError
| TypeError
| KeyError
| OSError
| CalledProcessError
| ConnectionError
| Timeout
| JSONDecodeError
| IndexError
| RuntimeError.

Inductive result (A : Type) : Type :=
| Ok (a : A)
| Raise (e : exn).
Arguments Ok {A} a.
Arguments Raise {A} e.

Definition rbind {A B} (r : result A) (k : A -> result B) : result B :=
  match r with
  | Ok a => k a
  | Raise e => Raise e
  end.

Declare Scope py_scope.
Delimit Scope py_scope with py.
Notation "'let?' x ':=' r 'in' k" := (rbind r (fun x => k))
  (at level 10, x name, r at level 100, k at level 200) : py_scope.
Local Open Scope py_scope.

(** [for x in l: acc = f acc x], stopping at the first exception. *)
Fixpoint for_each {A S} (f : S -> A -> result S) (l : list A) (acc : S)
  : result S :=
  match l with
  | [] => Ok acc
  | x :: rest => let? acc' := f acc x in for_each f rest acc'
  end.

Module Py.

(** [d.get(k)] on the bindings of a dict. *)
Fixpoint dict_get (d : list (string * pyval)) (k : string) : option pyval :=
  match d with
  | [] => None
  | (k', v) :: rest => if String.eqb k' k then Some v else dict_get rest k
  end.

(** [d[k] = v]: an existing key keeps its position, a new one goes last. *)
Fixpoint dict_set (d : list (string * pyval)) (k : string) (v : pyval)
  : list (string * pyval) :=
  match d with
  | [] => [(k, v)]
  | (k', v') :: rest =>
      if String.eqb k' k then (k', v) :: rest
      else (k', v') :: dict_set rest k v
  end.

(** [x.get(k, default)]: only a dict has the method. *)
Definition get (x : pyval) (k : string) (dflt : pyval) : result pyval :=
  match x with
  | PDict d => Ok (default dflt (dict_get d k))
  | _ => Raise AttributeError
  end.

(** Truth value of [if x:]. *)
Definition truthy (x : pyval) : bool :=
  match x with
  | PNone => false
  | PBool b => b
  | PInt n => negb (n =? 0)%Z
  | PStr s => negb (String.eqb s "")
  | PList l => match l with [] => false | _ => true end
  | PDict d => match d with [] => false | _ => true end
  end.

(** A string holds the UTF-8 bytes of the Python text; a byte [10xxxxxx]
    continues the character before it. *)
Definition continues (s : string) : bool :=
  match s with
  | EmptyString => false
  | String c _ =>
      let n := nat_of_ascii c in
      Nat.leb 128 n && Nat.ltb n 192
  end.

(** The characters of a text: each lead byte with the bytes that continue
    it. *)
Fixpoint code_points (s : string) : list string :=
  match s with
  | EmptyString => []
  | String c rest =>
      match code_points rest with
      | tail :: others =>
          if continues tail then String c tail :: others
          else String c EmptyString :: tail :: others
      | [] => [String c EmptyString]
      end
  end.

Definition chars (s : string) : list pyval := map PStr (code_points s).

(** [for x in v]: lists give their elements, strings their characters,
    dicts their keys; the other values are not iterable. *)
Definition iter (v : pyval) : result (list pyval) :=
  match v with
  | PList l => Ok l
  | PStr s => Ok (chars s)
  | PDict d => Ok (map (fun kv => PStr (fst kv)) d)
  | _ => Raise TypeError
  end.

(** [x != s] for a string literal [s]. *)
Definition ne_str (x : pyval) (s : string) : bool :=
  match x with
  | PStr t => negb (String.eqb t s)
  | _ => true
  end.

(** [k in x] for a string [k]. *)
Definition contains (x : pyval) (k : string) : result bool :=
  match x with
  | PDict d => Ok (bool_decide (is_Some (Py.dict_get d k)))
  | PList l => Ok (existsb (fun y => negb (Py.ne_str y k)) l)
  | PStr s => Ok (bool_decide (is_Some (String.index 0 k s)))
  | _ => Raise TypeError
  end.

(** [x[k]] for a string [k]. *)
Definition getitem (x : pyval) (k : string) : result pyval :=
  match x with
  | PDict d => match Py.dict_get d k with
               | Some v => Ok v
               | None => Raise KeyError
               end
  | _ => Raise TypeError
  end.

End Py.

(** ** The charm's surroundings

    Juju configuration options are typed scalars (strings, integers and
    booleans here). *)

Inductive cfgval : Type :=
| CStr (s : string)
| CInt (n : Z)
| CBool (b : bool).

Definition cfg_to_py (c : cfgval) : pyval :=
  match c with
  | CStr s => PStr s
  | CInt n => PInt n
  | CBool b => PBool b
  end.

(** [self.config.get(key, default)] *)
Definition config_get (config : gmap string cfgval) (key : string)
  (dflt : cfgval) : cfgval :=
  default dflt (config !! key).

(** [f"{n}"] for an integer. *)
Definition str_of_Z (n : Z) : string := NilZero.string_of_int (Z.to_int n).

(** [f"{c}"] for a configuration value. *)
Definition cfg_str (c : cfgval) : string :=
  match c with
  | CStr s => s
  | CInt n => str_of_Z n
  | CBool b => if b then "True" else "False"
  end.

Inductive status : Type :=
| UnknownStatus
| ActiveStatus (message : string)
| WaitingStatus (message : string)
| BlockedStatus (message : string)
| MaintenanceStatus (message : string).

(** What the handlers do to the outside, in the order they do it. *)
Inductive event : Type :=
| EvWriteFile (path content : string)
| EvSystemctl (verb : string)
| EvHttpGet (url : string) (timeout : Z)
| EvSleep (seconds : Z).

(** Outcome of a [systemctl] call run with [check=True]: it succeeds, or it
    exits non-zero and leaves the unit active or not. *)
Inductive ctl_outcome : Type :=
| CtlOk
| CtlFailed (active_after : bool).

(** Outcome of [requests.get]: an exception, or a response with its status
    code and what [response.json()] gives. *)
Inductive http_outcome : Type :=
| HttpRaises (e : exn)
| HttpResponse (status_code : Z) (json : result pyval).

(** The collaborators outside this repository: the YAML serializer, the
    relation library, the file system, systemd and the HTTP API of the
    managed process ([requests_get k] answers the [k]-th request).  The
    serializer is a function of the document as a tree of values: one Python
    object shared between two places of a document, which [yaml.dump] would
    write as an anchor and an alias, is not represented.  A restart that
    succeeds leaves the unit active. *)
Record env : Type := {
  yaml_dump : pyval -> string;
  consumer_jobs : list pyval;
  open_for_write : bool;
  systemctl_restart : ctl_outcome;
  requests_get : nat -> http_outcome;
}.

Record world : Type := {
  unit_status : status;
  bin_exists : bool;
  service_active : bool;
  config_file : option string;
  http_requests : nat;
  trace : list event;
}.

(** State and exceptions: a computation reads the surroundings, changes the
    world and returns or raises. *)
Definition M (A : Type) : Type := env -> world -> result A * world.

Definition ret {A} (a : A) : M A := fun _ w => (Ok a, w).
Definition raise {A} (e : exn) : M A := fun _ w => (Raise e, w).
Definition bind {A B} (c : M A) (k : A -> M B) : M B :=
  fun E w =>
    match c E w with
    | (Ok a, w') => k a E w'
    | (Raise e, w') => (Raise e, w')
    end.
(** [try: c except Exception: h] *)
Definition try_except {A} (c : M A) (h : exn -> M A) : M A :=
  fun E w =>
    match c E w with
    | (Ok a, w') => (Ok a, w')
    | (Raise e, w') => h e E w'
    end.
(** [try: c except (E1, E2): h], catching the exceptions [caught] accepts. *)
Definition try_except_only {A} (caught : exn -> bool) (c : M A)
  (h : exn -> M A) : M A :=
  fun E w =>
    match c E w with
    | (Ok a, w') => (Ok a, w')
    | (Raise e, w') => if caught e then h e E w' else (Raise e, w')
    end.
Definition lift {A} (r : result A) : M A := fun _ w => (r, w).
Definition emit (ev : event) : M unit :=
  fun _ w =>
    (Ok tt, {| unit_status := unit_status w; bin_exists := bin_exists w;
               service_active := service_active w;
               config_file := config_file w;
               http_requests := http_requests w;
               trace := trace w ++ [ev] |}).
Definition set_status (s : status) : M unit :=
  fun _ w =>
    (Ok tt, {| unit_status := s; bin_exists := bin_exists w;
               service_active := service_active w;
               config_file := config_file w;
               http_requests := http_requests w;
               trace := trace w |}).
Definition set_active (b : bool) : M unit :=
  fun _ w =>
    (Ok tt, {| unit_status := unit_status w; bin_exists := bin_exists w;
               service_active := b;
               config_file := config_file w;
               http_requests := http_requests w;
               trace := trace w |}).
Definition set_config_file (content : string) : M unit :=
  fun _ w =>
    (Ok tt, {| unit_status := unit_status w; bin_exists := bin_exists w;
               service_active := service_active w;
               config_file := Some content;
               http_requests := http_requests w;
               trace := trace w |}).
Definition next_request : M nat :=
  fun _ w =>
    (Ok (http_requests w),
     {| unit_status := unit_status w; bin_exists := bin_exists w;
        service_active := service_active w;
        config_file := config_file w;
        http_requests := S (http_requests w);
        trace := trace w |}).
Definition ask : M env := fun E w => (Ok E, w).
Definition get_world : M world := fun _ w => (Ok w, w).

Notation "'let!' x ':=' c 'in' k" := (bind c (fun x => k))
  (at level 10, x name, c at level 100, k at level 200) : py_scope.

(** ** lib/prometheus_config.py *)

Module PrometheusConfig.

Definition PROMETHEUS_CONFIG_DIR : string := "/etc/prometheus".
Definition PROMETHEUS_CONFIG_FILE : string :=
  PROMETHEUS_CONFIG_DIR ++ "/prometheus.yml".

Definition _build_global_config (config : gmap string cfgval) : pyval :=
  let scrape_interval := config_get config "scrape-interval" (CStr "1m") in
  let scrape_timeout := config_get config "scrape-timeout" (CStr "10s") in
  let evaluation_interval :=
    config_get config "evaluation-interval" (CStr "1m") in
  PDict [("scrape_interval", cfg_to_py scrape_interval);
         ("scrape_timeout", cfg_to_py scrape_timeout);
         ("evaluation_interval", cfg_to_py evaluation_interval)].

Definition _build_self_monitoring_job : pyval :=
  PDict [("job_name", PStr "prometheus");
         ("static_configs",
          PList [PDict [("targets", PList [PStr "localhost:9090"])]])].

(** Body of [for target in targets]: both branches append the target as
    it is; a target without [startswith] raises. *)
Definition resolve_target (resolved_targets : list pyval) (target : pyval)
  : result (list pyval) :=
  match target with
  | PStr s =>
      if String.prefix "*:" s then Ok (resolved_targets ++ [target])
      else Ok (resolved_targets ++ [target])
  | _ => Raise AttributeError
  end.

(** Body of [for config in static_configs]. *)
Definition process_static_config (processed_static_configs : list pyval)
  (config : pyval) : result (list pyval) :=
  let? targets := Py.get config "targets" (PList []) in
  let? labels := Py.get config "labels" (PDict []) in
  let? targets_seq := Py.iter targets in
  let? resolved_targets := for_each resolve_target targets_seq [] in
  if Py.truthy (PList resolved_targets) then
    Ok (processed_static_configs
          ++ [PDict [("targets", PList resolved_targets);
                     ("labels", labels)]])
  else Ok processed_static_configs.

(** [scrape_config[key] = job_data[key]] when [key in job_data]. *)
Definition copy_if_present (job_data : pyval) (key : string)
  (scrape_config : list (string * pyval))
  : result (list (string * pyval)) :=
  let? present := Py.contains job_data key in
  if (present : bool) then
    let? v := Py.getitem job_data key in
    Ok (Py.dict_set scrape_config key v)
  else Ok scrape_config.

(** Returns [PNone] for a job without targets. *)
Definition _build_job_config (job_name : pyval) (job_data : pyval)
  : result pyval :=
  let? metrics_path := Py.get job_data "metrics_path" (PStr "/metrics") in
  let? static_configs := Py.get job_data "static_configs" (PList []) in
  let? configs := Py.iter static_configs in
  let? processed_static_configs :=
    for_each process_static_config configs [] in
  if negb (Py.truthy (PList processed_static_configs)) then Ok PNone
  else
    let scrape_config :=
      [("job_name", job_name);
       ("metrics_path", metrics_path);
       ("static_configs", PList processed_static_configs)] in
    let? scrape_config :=
      copy_if_present job_data "relabel_configs" scrape_config in
    let? scrape_config :=
      copy_if_present job_data "metric_relabel_configs" scrape_config in
    Ok (PDict scrape_config).

(** Body of [for job_name, job_data in scrape_jobs.items()], with its
    [try]/[except Exception]. *)
Definition add_job (configs : list pyval) (item : pyval * pyval)
  : list pyval :=
  match _build_job_config (fst item) (snd item) with
  | Ok scrape_config =>
      if Py.truthy scrape_config then configs ++ [scrape_config]
      else configs
  | Raise _ => configs
  end.

Definition _build_scrape_configs (scrape_jobs : list (pyval * pyval))
  : list pyval :=
  fold_left add_job scrape_jobs [_build_self_monitoring_job].

(** The document handed to [yaml.dump]. *)
Definition config_document (config : gmap string cfgval)
  (scrape_jobs : list (pyval * pyval)) : pyval :=
  PDict [("global", _build_global_config config);
         ("scrape_configs", PList (_build_scrape_configs scrape_jobs))].

(** Creating the directory and opening the file either succeed or raise;
    then the whole document replaces the file. *)
Definition generate_config (config : gmap string cfgval)
  (scrape_jobs : list (pyval * pyval)) : M unit :=
  let document := config_document config scrape_jobs in
  let! E := ask in
  if open_for_write E then
    let content := yaml_dump E document in
    let! _ := emit (EvWriteFile PROMETHEUS_CONFIG_FILE content) in
    set_config_file content
  else raise OSError.

End PrometheusConfig.

(** ** lib/prometheus_installer.py *)

Module PrometheusInstaller.

Definition PROMETHEUS_DATA_DIR : string := "/var/lib/prometheus".
Definition PROMETHEUS_CONFIG_DIR : string := "/etc/prometheus".
Definition PROMETHEUS_BIN : string := "/usr/local/bin/prometheus".

Definition cfg_truthy (c : cfgval) : bool := Py.truthy (cfg_to_py c).

(** The command line [create_systemd_service] puts on [ExecStart]. *)
Definition service_args (config : gmap string cfgval) : list string :=
  let listen_address :=
    config_get config "listen-address" (CStr "0.0.0.0:9090") in
  let retention_time := config_get config "retention-time" (CStr "15d") in
  let retention_size := config_get config "retention-size" (CStr "0") in
  let external_url := config_get config "external-url" (CStr "") in
  let log_level := config_get config "log-level" (CStr "info") in
  let enable_admin_api :=
    config_get config "enable-admin-api" (CBool false) in
  let args :=
    [ "--config.file=" ++ PROMETHEUS_CONFIG_DIR ++ "/prometheus.yml";
      "--storage.tsdb.path=" ++ PROMETHEUS_DATA_DIR;
      "--web.console.templates=" ++ PROMETHEUS_CONFIG_DIR ++ "/consoles";
      "--web.console.libraries=" ++ PROMETHEUS_CONFIG_DIR
        ++ "/console_libraries";
      "--web.listen-address=" ++ cfg_str listen_address;
      "--storage.tsdb.retention.time=" ++ cfg_str retention_time;
      "--log.level=" ++ cfg_str log_level ]%string in
  let args :=
    if Py.ne_str (cfg_to_py retention_size) "0"
    then args ++ [("--storage.tsdb.retention.size="
                     ++ cfg_str retention_size)%string]
    else args in
  let args :=
    if cfg_truthy external_url
    then args ++ [("--web.external-url=" ++ cfg_str external_url)%string]
    else args in
  let args :=
    if cfg_truthy enable_admin_api
    then args ++ ["--web.enable-admin-api"]
    else args in
  args.

(** [systemctl restart prometheus] with [check=True]. *)
Definition restart_service : M unit :=
  let! _ := emit (EvSystemctl "restart") in
  let! E := ask in
  match systemctl_restart E with
  | CtlOk => set_active true
  | CtlFailed active_after =>
      let! _ := set_active active_after in
      raise CalledProcessError
  end.

(** [systemctl is-active prometheus] exits with 0 for an active unit. *)
Definition is_service_running : M bool :=
  let! _ := emit (EvSystemctl "is-active") in
  let! w := get_world in
  ret (service_active w).

(** [Path(PROMETHEUS_BIN).exists()] *)
Definition is_installed : M bool :=
  let! w := get_world in
  ret (bin_exists w).

End PrometheusInstaller.

(** ** src/charm.py *)

Module Charm.

(** [s.split(sep)]: never empty. *)
Fixpoint split (sep : ascii) (s : string) : list string :=
  match s with
  | EmptyString => [EmptyString]
  | String c rest =>
      if Ascii.eqb c sep then EmptyString :: split sep rest
      else match split sep rest with
           | seg :: segs => String c seg :: segs
           | [] => [String c EmptyString]
           end
  end.

(** [listen_address.split(":")[-1]]: only a string can be split. *)
Definition port_of (listen_address : cfgval) : result string :=
  match listen_address with
  | CStr s =>
      match List.last (map Some (split ":" s)) None with
      | Some port => Ok port
      | None => Raise IndexError
      end
  | _ => Raise AttributeError
  end.

(** Keys of the [jobs] dict: what Python can hash among JSON values. *)
Definition hashable (k : pyval) : bool :=
  match k with
  | PList _ | PDict _ => false
  | _ => true
  end.

(** Equality of dict keys; [True] and [1], [False] and [0] are one key. *)
Definition key_eqb (a b : pyval) : bool :=
  match a, b with
  | PNone, PNone => true
  | PStr s, PStr t => String.eqb s t
  | PBool x, PBool y => Bool.eqb x y
  | PInt n, PInt m => (n =? m)%Z
  | PBool x, PInt m => ((if x then 1 else 0) =? m)%Z
  | PInt n, PBool y => (n =? (if y then 1 else 0))%Z
  | _, _ => false
  end.

(** [jobs[k] = v]: a key already there keeps its place and gets the new
    value, a new key goes last. *)
Fixpoint jobs_insert (jobs : list (pyval * pyval)) (k v : pyval)
  : list (pyval * pyval) :=
  match jobs with
  | [] => [(k, v)]
  | (k', v') :: rest =>
      if key_eqb k' k then (k', v) :: rest
      else (k', v') :: jobs_insert rest k v
  end.

(** [jobs.get(k)] *)
Fixpoint jobs_lookup (jobs : list (pyval * pyval)) (k : pyval)
  : option pyval :=
  match jobs with
  | [] => None
  | (k', v) :: rest => if key_eqb k' k then Some v else jobs_lookup rest k
  end.

(** Body of [for job in self.metrics_consumer.jobs()]. *)
Definition store_job (jobs : list (pyval * pyval)) (job : pyval)
  : result (list (pyval * pyval)) :=
  let? job_name := Py.get job "job_name" (PStr "unknown") in
  if hashable job_name then Ok (jobs_insert jobs job_name job)
  else Raise TypeError.

Definition _get_scrape_jobs : M (list (pyval * pyval)) :=
  let! E := ask in
  lift (for_each store_job (consumer_jobs E) []).

(** Body of the list comprehension over [active_targets]. *)
Definition keep_non_self (non_self_targets : list pyval) (t : pyval)
  : result (list pyval) :=
  let? labels := Py.get t "labels" (PDict []) in
  let? job := Py.get labels "job" PNone in
  if Py.ne_str job "prometheus" then Ok (non_self_targets ++ [t])
  else Ok non_self_targets.

(** What the probe does with a 200 response. *)
Definition count_non_self (json : result pyval) : result Z :=
  let? data := json in
  let? inner := Py.get data "data" (PDict []) in
  let? active_targets := Py.get inner "activeTargets" (PList []) in
  let? targets_seq := Py.iter active_targets in
  let? non_self_targets := for_each keep_non_self targets_seq [] in
  Ok (Z.of_nat (length non_self_targets)).

Definition retryable (e : exn) : bool :=
  match e with
  | ConnectionError | Timeout => true
  | _ => false
  end.

(** The [try] body of one attempt: [Some n] is its [return n], [None] is
    falling out of the [if]. *)
Definition attempt_once (url : string) : M (option Z) :=
  let! k := next_request in
  let! _ := emit (EvHttpGet url 5) in
  let! E := ask in
  match requests_get E k with
  | HttpRaises e => raise e
  | HttpResponse status_code json =>
      if (status_code =? 200)%Z then
        let! n := lift (count_non_self json) in
        ret (Some n)
      else ret None
  end.

(** [for attempt in range(max_retries)] around the inner [try]; [Some n] is
    a [return n] from inside the loop, [None] is the loop running out. *)
Fixpoint retry_loop (max_retries : Z) (url : string) (attempts : list Z)
  : M (option Z) :=
  match attempts with
  | [] => ret None
  | attempt :: rest =>
      let! returned :=
        try_except_only retryable (attempt_once url)
          (fun _ =>
             let! _ := (if (attempt <? max_retries - 1)%Z
                        then emit (EvSleep 2) else ret tt) in
             ret None) in
      match returned with
      | Some n => ret (Some n)
      | None => retry_loop max_retries url rest
      end
  end.

Definition range (n : Z) : list Z := map Z.of_nat (seq 0 (Z.to_nat n)).

Definition _get_active_targets_from_api (config : gmap string cfgval)
  : M Z :=
  let! returned :=
    try_except
      (let listen_address :=
         config_get config "listen-address" (CStr "0.0.0.0:9090") in
       let! port := lift (port_of listen_address) in
       let max_retries := 3%Z in
       retry_loop max_retries
         ("http://localhost:" ++ port ++ "/api/v1/targets")
         (range max_retries))
      (fun _ => ret None) in
  match returned with
  | Some n => ret n
  | None => ret 0%Z
  end.

Definition _update_status (config : gmap string cfgval) : M unit :=
  let! installed := PrometheusInstaller.is_installed in
  if negb installed then
    set_status (BlockedStatus "Prometheus not installed")
  else
    let! running := PrometheusInstaller.is_service_running in
    if negb running then
      set_status (BlockedStatus "Prometheus service not running")
    else
      let! target_count := _get_active_targets_from_api config in
      if (target_count =? 0)%Z then
        set_status (ActiveStatus "Prometheus ready (no targets)")
      else
        set_status
          (ActiveStatus ("Prometheus ready (scraping "
                           ++ str_of_Z target_count ++ " targets)")).

Definition _on_config_changed (config : gmap string cfgval) : M unit :=
  let! jobs := _get_scrape_jobs in
  let! _ := PrometheusConfig.generate_config config jobs in
  let! running := PrometheusInstaller.is_service_running in
  let! _ := (if (running : bool) then PrometheusInstaller.restart_service
             else ret tt) in
  _update_status config.

Definition _on_targets_changed (config : gmap string cfgval) : M unit :=
  let! jobs := _get_scrape_jobs in
  let! _ := PrometheusConfig.generate_config config jobs in
  let! running := PrometheusInstaller.is_service_running in
  let! _ := (if (running : bool) then PrometheusInstaller.restart_service
             else ret tt) in
  _update_status config.

End Charm.

(** ** Vocabulary of the statements *)

Module Descriptor.

(** The static target groups of a job descriptor. *)
Definition groups (job_data : pyval) : list pyval :=
  match job_data with
  | PDict d => match Py.dict_get d "static_configs" with
               | Some (PList gs) => gs
               | _ => []
               end
  | _ => []
  end.

(** The targets of a target group. *)
Definition targets (group : pyval) : list pyval :=
  match group with
  | PDict g => match Py.dict_get g "targets" with
               | Some (PList ts) => ts
               | _ => []
               end
  | _ => []
  end.

(** The labels of a target group, empty when it has none. *)
Definition labels (group : pyval) : pyval :=
  match group with
  | PDict g => default (PDict []) (Py.dict_get g "labels")
  | _ => PDict []
  end.

Definition is_str (v : pyval) : bool :=
  match v with PStr _ => true | _ => false end.

(** A group as the data model has it: a mapping whose targets, when
    given, are a sequence of strings. *)
Definition wf_group (group : pyval) : bool :=
  match group with
  | PDict g => match Py.dict_get g "targets" with
               | None => true
               | Some (PList ts) => forallb is_str ts
               | Some _ => false
               end
  | _ => false
  end.

(** A job descriptor as the data model has it: a mapping whose target
    groups, when given, are a sequence of well-formed groups. *)
Definition wf_job (job_data : pyval) : bool :=
  match job_data with
  | PDict d => match Py.dict_get d "static_configs" with
               | None => true
               | Some (PList gs) => forallb wf_group gs
               | Some _ => false
               end
  | _ => false
  end.

Definition nonempty (group : pyval) : bool :=
  match targets group with [] => false | _ => true end.

(** What a retained group is rendered as. *)
Definition rendered (group : pyval) : pyval :=
  PDict [("targets", PList (targets group)); ("labels", labels group)].

(** What one job adds to the scrape-config list. *)
Definition contribution (item : pyval * pyval) : list pyval :=
  match PrometheusConfig._build_job_config (fst item) (snd item) with
  | Ok scrape_config =>
      if Py.truthy scrape_config then [scrape_config] else []
  | Raise _ => []
  end.

(** A job of the relation library that [_get_scrape_jobs] files under
    ["unknown"]: it has no name, or that very name. *)
Definition lands_on_unknown (job : pyval) : bool :=
  match job with
  | PDict d => match Py.dict_get d "job_name" with
               | None => true
               | Some (PStr s) => String.eqb s "unknown"
               | Some _ => false
               end
  | _ => false
  end.

Definition nameless (job : pyval) : bool :=
  match job with
  | PDict d => match Py.dict_get d "job_name" with
               | None => true
               | Some _ => false
               end
  | _ => false
  end.

Definition keyed_unknown (entry : pyval * pyval) : bool :=
  Charm.key_eqb (fst entry) (PStr "unknown").

End Descriptor.

Module Probe.

(** The job label of an entry of the active-target list. *)
Definition job_label (t : pyval) : option pyval :=
  match t with
  | PDict d => match Py.dict_get d "labels" with
               | Some (PDict ls) => Py.dict_get ls "job"
               | _ => None
               end
  | _ => None
  end.

(** The entry's job label is exactly the string [name]. *)
Definition labelled (name : string) (t : pyval) : bool :=
  match job_label t with
  | Some (PStr j) => String.eqb j name
  | _ => false
  end.

(** An entry as the status API gives it: a mapping whose labels, when
    given, are a mapping. *)
Definition wf_target (t : pyval) : bool :=
  match t with
  | PDict d => match Py.dict_get d "labels" with
               | None | Some (PDict _) => true
               | Some _ => false
               end
  | _ => false
  end.

(** The active-target list of a response body. *)
Definition active_targets (body : pyval) : option (list pyval) :=
  match (let? inner := Py.get body "data" (PDict []) in
         Py.get inner "activeTargets" (PList [])) with
  | Ok (PList ts) => Some ts
  | _ => None
  end.

(** An attempt that makes the loop go on: connection error, timeout or a
    status other than 200. *)
Definition goes_on (o : http_outcome) : bool :=
  match o with
  | HttpRaises e => Charm.retryable e
  | HttpResponse status_code _ => negb (status_code =? 200)%Z
  end.

Definition unreachable (o : http_outcome) : bool :=
  match o with
  | HttpRaises e => Charm.retryable e
  | HttpResponse _ _ => false
  end.

Definition is_restart (ev : event) : bool :=
  match ev with
  | EvSystemctl verb => String.eqb verb "restart"
  | _ => false
  end.

Definition is_write (ev : event) : bool :=
  match ev with
  | EvWriteFile _ _ => true
  | _ => false
  end.

Definition is_request (ev : event) : bool :=
  match ev with
  | EvHttpGet _ _ => true
  | _ => false
  end.

(** The option holds a string (or is not set). *)
Definition str_option (config : gmap string cfgval) (key : string) : bool :=
  match config !! key with
  | None | Some (CStr _) => true
  | Some _ => false
  end.

(** The world after [n] more requests whose events are [evs]. *)
Definition after_requests (w : world) (n : nat) (evs : list event) : world :=
  {| unit_status := unit_status w; bin_exists := bin_exists w;
     service_active := service_active w; config_file := config_file w;
     http_requests := http_requests w + n;
     trace := trace w ++ evs |}.

(** Requests and sleeps: all a probe does. *)
Definition probe_event (ev : event) : bool :=
  match ev with
  | EvHttpGet _ _ | EvSleep _ => true
  | _ => false
  end.

(** The address the probe asks. *)
Definition url_of (port : string) : string :=
  "http://localhost:" ++ port ++ "/api/v1/targets".

End Probe.

(** ** Concrete inputs *)

Module Examples.

Definition group_a : pyval :=
  PDict [("targets", PList [PStr "10.0.0.1:9100"]); ("labels", PDict [])].
Definition group_empty : pyval :=
  PDict [("targets", PList []); ("labels", PDict [("env", PStr "dev")])].
Definition group_bare : pyval :=
  PDict [("targets", PList [PStr "*:9391"])].

Definition app_a : pyval :=
  PDict [("job_name", PStr "app-a");
         ("static_configs", PList [group_a; group_empty; group_bare])].
(** Its only group lists a number among the targets. *)
Definition app_bad : pyval :=
  PDict [("job_name", PStr "app-bad");
         ("static_configs", PList [PDict [("targets", PList [PInt 9100])]])].
Definition app_b : pyval :=
  PDict [("job_name", PStr "app-b");
         ("static_configs", PList [group_bare]);
         ("relabel_configs", PList [])].

Definition world0 : world :=
  {| unit_status := UnknownStatus; bin_exists := true;
     service_active := true; config_file := None;
     http_requests := 0; trace := [] |}.

Definition toy_dump (document : pyval) : string :=
  match document with
  | PDict [("global", _); ("scrape_configs", PList l)] =>
      str_of_Z (Z.of_nat (length l)) ++ " scrape jobs"
  | _ => "?"
  end.

(** The managed process accepts no connection. *)
Definition env_down : env :=
  {| yaml_dump := toy_dump; consumer_jobs := [app_a];
     open_for_write := true; systemctl_restart := CtlOk;
     requests_get := fun _ => HttpRaises ConnectionError |}.

(** The managed process answers and has no active target. *)
Definition env_idle : env :=
  {| yaml_dump := toy_dump; consumer_jobs := [app_a];
     open_for_write := true; systemctl_restart := CtlOk;
     requests_get := fun _ =>
       HttpResponse 200
         (Ok (PDict [("data", PDict [("activeTargets", PList [])])])) |}.

Definition target (job : string) : pyval :=
  PDict [("labels", PDict [("job", PStr job); ("instance", PStr "h:1")]);
         ("health", PStr "up")].

Definition three_targets : list pyval :=
  [target "prometheus"; target "prometheus-2"; target "node"].

(** The first request times out, the second is answered. *)
Definition env_three : env :=
  {| yaml_dump := toy_dump; consumer_jobs := [app_a];
     open_for_write := true; systemctl_restart := CtlOk;
     requests_get := fun k =>
       match k with
       | 0 => HttpRaises Timeout
       | _ => HttpResponse 200
                (Ok (PDict [("status", PStr "success");
                            ("data",
                             PDict [("activeTargets", PList three_targets)])]))
       end |}.

(** The operator moved the managed process to port 9100. *)
Definition config_9100 : gmap string cfgval :=
  {[ "listen-address" := CStr "0.0.0.0:9100" ]}.

Definition config_fast : gmap string cfgval :=
  <[ "scrape-interval" := CStr "15s" ]> config_9100.
Definition config_fast_debug : gmap string cfgval :=
  <[ "log-level" := CStr "debug" ]>
    (<[ "scrape-interval" := CStr "15s" ]> ∅).

Definition three_jobs : list (pyval * pyval) :=
  [(PStr "app-a", app_a); (PStr "app-bad", app_bad); (PStr "app-b", app_b)].

Definition no_name_1 : pyval :=
  PDict [("static_configs", PList [group_a])].
Definition no_name_2 : pyval :=
  PDict [("static_configs", PList [group_bare])].
Definition named_unknown : pyval :=
  PDict [("job_name", PStr "unknown"); ("static_configs", PList [group_a])].

Definition env_nameless : env :=
  {| yaml_dump := toy_dump;
     consumer_jobs := [no_name_1; named_unknown; app_a; no_name_2; app_b];
     open_for_write := true; systemctl_restart := CtlOk;
     requests_get := fun _ => HttpRaises ConnectionError |}.

(** The file already holds what the handler is about to write. *)
Definition world_written : world :=
  {| unit_status := ActiveStatus "Prometheus ready (no targets)";
     bin_exists := true; service_active := true;
     config_file := Some "2 scrape jobs";
     http_requests := 0; trace := [] |}.

Definition world_stopped : world :=
  {| unit_status := BlockedStatus "Prometheus service not running";
     bin_exists := true; service_active := false;
     config_file := Some "stale";
     http_requests := 7; trace := [EvSystemctl "is-active"] |}.

End Examples.

(** ** The rest of the lifecycle: lib/prometheus_installer.py and the other
       handlers of src/charm.py *)

Module Lifecycle.

(** What downloading and unpacking a release ends in: the binaries are in
    place, or a step raised, with the prometheus binary copied or not. *)
Inductive fetch_outcome : Type :=
| Fetched
| FetchFailed (e : exn) (binary_copied : bool).

(** The machine the charm runs on, for the steps the handlers of this module
    take: the architecture, how creating the user and the directories ends,
    how fetching a release from a URL ends, whether the unit file can be
    written, how the [systemctl] calls end, and the text of an exception. *)
Record host : Type := {
  uname_machine : string;
  provision_user_and_directories : result unit;
  fetch_release : string -> fetch_outcome;
  write_unit_file : bool;
  systemctl_daemon_reload : bool;
  systemctl_enable : bool;
  systemctl_start : ctl_outcome;
  systemctl_stop : ctl_outcome;
  str_exn : exn -> string;
}.

Definition set_bin_exists (b : bool) : M unit :=
  fun _ w =>
    (Ok tt, {| unit_status := unit_status w; bin_exists := b;
               service_active := service_active w;
               config_file := config_file w;
               http_requests := http_requests w;
               trace := trace w |}).

Definition _get_architecture (machine : string) : result string :=
  if String.eqb machine "x86_64" then Ok "amd64"
  else if String.eqb machine "aarch64" then Ok "arm64"
  else Raise RuntimeError.

Definition release_url (version arch : string) : string :=
  "https://github.com/prometheus/prometheus/releases/download/"
    ++ "v" ++ version ++ "/prometheus-" ++ version ++ ".linux-" ++ arch
    ++ ".tar.gz".

Definition setup_user_and_directories (H : host) : M unit :=
  lift (provision_user_and_directories H).

(** The architecture is looked up before anything is downloaded. *)
Definition install_prometheus (H : host) (version : string) : M unit :=
  let! arch := lift (_get_architecture (uname_machine H)) in
  match fetch_release H (release_url version arch) with
  | Fetched => set_bin_exists true
  | FetchFailed e binary_copied =>
      let! _ := (if binary_copied then set_bin_exists true else ret tt) in
      raise e
  end.

Definition nl : string := String (ascii_of_nat 10) EmptyString.

(** [exec_start] with one continuation line for each argument. *)
Definition exec_start (args : list string) : string :=
  fold_left
    (fun acc arg : string => (acc ++ " \" ++ nl ++ "    " ++ arg)%string)
    args ("ExecStart=" ++ PrometheusInstaller.PROMETHEUS_BIN)%string.

Definition service_content (args : list string) : string :=
  "[Unit]" ++ nl
  ++ "Description=Prometheus" ++ nl
  ++ "Documentation=https://prometheus.io/docs/introduction/overview/" ++ nl
  ++ "Wants=network-online.target" ++ nl
  ++ "After=network-online.target" ++ nl
  ++ nl
  ++ "[Service]" ++ nl
  ++ "Type=simple" ++ nl
  ++ "User=prometheus" ++ nl
  ++ "Group=prometheus" ++ nl
  ++ exec_start args ++ nl
  ++ nl
  ++ "Restart=on-failure" ++ nl
  ++ "RestartSec=5s" ++ nl
  ++ nl
  ++ "[Install]" ++ nl
  ++ "WantedBy=multi-user.target" ++ nl.

Definition SERVICE_PATH : string := "/etc/systemd/system/prometheus.service".

Definition create_systemd_service (H : host) (config : gmap string cfgval)
  : M unit :=
  let content := service_content (PrometheusInstaller.service_args config) in
  if write_unit_file H then
    let! _ := emit (EvWriteFile SERVICE_PATH content) in
    let! _ := emit (EvSystemctl "daemon-reload") in
    if systemctl_daemon_reload H then ret tt else raise CalledProcessError
  else raise OSError.

(** [systemctl enable prometheus], then [systemctl start prometheus], both
    with [check=True]. *)
Definition start_service (H : host) : M unit :=
  let! _ := emit (EvSystemctl "enable") in
  if systemctl_enable H then
    let! _ := emit (EvSystemctl "start") in
    match systemctl_start H with
    | CtlOk => set_active true
    | CtlFailed active_after =>
        let! _ := set_active active_after in
        raise CalledProcessError
    end
  else raise CalledProcessError.

Definition stop_service (H : host) : M unit :=
  let! _ := emit (EvSystemctl "stop") in
  match systemctl_stop H with
  | CtlOk => set_active false
  | CtlFailed active_after =>
      let! _ := set_active active_after in
      raise CalledProcessError
  end.

Definition _on_install (H : host) (config : gmap string cfgval) : M unit :=
  let! _ := set_status (MaintenanceStatus "Installing Prometheus") in
  try_except
    (let! _ := setup_user_and_directories H in
     let version :=
       config_get config "prometheus-version" (CStr "2.53.0") in
     let! _ := install_prometheus H (cfg_str version) in
     let! _ := create_systemd_service H config in
     let! _ := PrometheusConfig.generate_config config [] in
     set_status (MaintenanceStatus "Prometheus installed"))
    (fun e =>
       let! _ := set_status
                   (BlockedStatus ("Installation failed: " ++ str_exn H e)) in
       raise e).

Definition _on_start (H : host) (config : gmap string cfgval) : M unit :=
  try_except
    (let! _ := start_service H in
     Charm._update_status config)
    (fun e =>
       set_status (BlockedStatus ("Failed to start: " ++ str_exn H e))).

Definition _on_update_status (config : gmap string cfgval) : M unit :=
  Charm._update_status config.

Definition _on_stop (H : host) : M unit :=
  try_except (stop_service H) (fun _ => ret tt).

(** The three conditional imports at the head of charm.py. *)
Record libraries : Type := {
  HAS_PROMETHEUS_SCRAPE : bool;
  HAS_GRAFANA_SOURCE : bool;
  HAS_HELPERS : bool;
}.

(** The URL handed to the Grafana source provider; the bind address may not
    be available. *)
Definition prometheus_url (config : gmap string cfgval)
  (bind_address : result string) : string :=
  let http_port := config_get config "http-port" (CInt 9090) in
  match bind_address with
  | Ok unit_ip => "http://" ++ unit_ip ++ ":" ++ cfg_str http_port
  | Raise _ => "http://localhost:" ++ cfg_str http_port
  end.

(** [__init__]: returns whether the handlers were registered. Setting up
    the installer, the configuration manager, the metrics consumer and the
    Grafana source provider (from [prometheus_url], when its library is there)
    does nothing to the world. *)
Definition init (L : libraries) : M bool :=
  if negb (HAS_PROMETHEUS_SCRAPE L) then
    let! _ := set_status (BlockedStatus "Missing prometheus_scrape library") in
    ret false
  else if negb (HAS_HELPERS L) then
    let! _ := set_status (BlockedStatus "Missing helper modules") in
    ret false
  else ret true.

Inductive hook : Type :=
| Install
| ConfigChanged
| Start
| UpdateStatus
| Stop
| TargetsChanged.

(** The handler [__init__] registers for each event. *)
Definition observer (H : host) (config : gmap string cfgval) (h : hook)
  : M unit :=
  match h with
  | Install => _on_install H config
  | ConfigChanged => Charm._on_config_changed config
  | Start => _on_start H config
  | UpdateStatus => _on_update_status config
  | Stop => _on_stop H
  | TargetsChanged => Charm._on_targets_changed config
  end.

(** One hook run: the charm object is built, then the event goes to its
    observer when there is one. *)
Definition run_hook (L : libraries) (H : host) (config : gmap string cfgval)
  (h : hook) : M unit :=
  let! observed := init L in
  if (observed : bool) then observer H config h else ret tt.

End Lifecycle.

(** ** More vocabulary *)

Module Shape.

(** The name of a rendered scrape job. *)
Definition job_name_of (scrape_config : pyval) : option pyval :=
  match scrape_config with
  | PDict cfg => Py.dict_get cfg "job_name"
  | _ => None
  end.

Definition named (name : string) (scrape_config : pyval) : bool :=
  match job_name_of scrape_config with
  | Some (PStr s) => String.eqb s name
  | _ => false
  end.

(** A rendered static config: targets, then labels; the targets are strings
    and there is at least one. *)
Definition wf_rendered (g : pyval) : bool :=
  match g with
  | PDict [("targets", PList (t :: ts)); ("labels", _)] =>
      forallb Descriptor.is_str (t :: ts)
  | _ => false
  end.

(** The key [_get_scrape_jobs] files a job under. *)
Definition job_key (job : pyval) : pyval :=
  match job with
  | PDict d => default (PStr "unknown") (Py.dict_get d "job_name")
  | _ => PStr "unknown"
  end.

(** A job the pull can file: a mapping whose name, if any, can be hashed. *)
Definition pullable (job : pyval) : bool :=
  match job with
  | PDict _ => Charm.hashable (job_key job)
  | _ => false
  end.

Definition keyed (k : pyval) (entry : pyval * pyval) : bool :=
  Charm.key_eqb (fst entry) k.

Fixpoint colon_free (s : string) : bool :=
  match s with
  | EmptyString => true
  | String c rest => negb (Ascii.eqb c ":") && colon_free rest
  end.

Definition is_sleep (ev : event) : bool :=
  match ev with
  | EvSleep _ => true
  | _ => false
  end.

(** Any sleep is one of two seconds. *)
Definition sleeps_two (ev : event) : bool :=
  match ev with
  | EvSleep seconds => (seconds =? 2)%Z
  | _ => true
  end.

(** An answer with another status than 200. *)
Definition other_status (o : http_outcome) : bool :=
  match o with
  | HttpRaises _ => false
  | HttpResponse status_code _ => negb (status_code =? 200)%Z
  end.

(** An answer that ends the probe without a count: an exception that is
    neither a connection error nor a timeout, from the request or from
    reading a 200 response. *)
Definition breaks (o : http_outcome) : bool :=
  match o with
  | HttpRaises e => negb (Charm.retryable e)
  | HttpResponse status_code json =>
      (status_code =? 200)%Z
      && match Charm.count_non_self json with
         | Raise e => negb (Charm.retryable e)
         | Ok _ => false
         end
  end.

Definition with_status (w : world) (s : status) : world :=
  {| unit_status := s; bin_exists := bin_exists w;
     service_active := service_active w; config_file := config_file w;
     http_requests := http_requests w; trace := trace w |}.

Definition with_trace (w : world) (evs : list event) : world :=
  {| unit_status := unit_status w; bin_exists := bin_exists w;
     service_active := service_active w; config_file := config_file w;
     http_requests := http_requests w; trace := trace w ++ evs |}.

Definition with_file (w : world) (content : string) : world :=
  {| unit_status := unit_status w; bin_exists := bin_exists w;
     service_active := service_active w; config_file := Some content;
     http_requests := http_requests w; trace := trace w |}.

Definition with_active (w : world) (b : bool) : world :=
  {| unit_status := unit_status w; bin_exists := bin_exists w;
     service_active := b; config_file := config_file w;
     http_requests := http_requests w; trace := trace w |}.

(** The text of the status after a probe that counted [n] targets. *)
Definition ready_message (n : Z) : string :=
  if (n =? 0)%Z then "Prometheus ready (no targets)"
  else "Prometheus ready (scraping " ++ str_of_Z n ++ " targets)".

End Shape.

(** ** More concrete inputs *)

Module MoreExamples.
Import Examples.

Definition app_b_fields : list (string * pyval) :=
  [("job_name", PStr "app-b");
   ("static_configs", PList [group_bare]);
   ("relabel_configs", PList [])].

(** Its targets are a string where a list is expected. *)
Definition app_text_fields : list (string * pyval) :=
  [("static_configs", PList [PDict [("targets", PStr "ab")]])].

(** A good group, then a group with a number among its targets. *)
Definition app_mixed_fields : list (string * pyval) :=
  [("static_configs",
    PList [group_a; PDict [("targets", PList [PStr "h:1"; PInt 9100])]])].

Definition job_true : pyval :=
  PDict [("job_name", PBool true); ("static_configs", PList [group_a])].
Definition job_one : pyval :=
  PDict [("job_name", PInt 1); ("static_configs", PList [group_bare])].
Definition job_listed : pyval :=
  PDict [("job_name", PList [PStr "a"])].

Definition env_numbers : env :=
  {| yaml_dump := toy_dump; consumer_jobs := [job_true; job_one; app_a];
     open_for_write := true; systemctl_restart := CtlOk;
     requests_get := fun _ => HttpRaises ConnectionError |}.

Definition env_unhashable : env :=
  {| yaml_dump := toy_dump; consumer_jobs := [app_a; job_listed; app_b];
     open_for_write := true; systemctl_restart := CtlOk;
     requests_get := fun _ => HttpRaises ConnectionError |}.

(** The endpoint answers 503 to every request. *)
Definition env_503 : env :=
  {| yaml_dump := toy_dump; consumer_jobs := [app_a];
     open_for_write := true; systemctl_restart := CtlOk;
     requests_get := fun _ => HttpResponse 503 (Raise JSONDecodeError) |}.

(** The endpoint answers 200 with a body that is not JSON. *)
Definition env_garbled : env :=
  {| yaml_dump := toy_dump; consumer_jobs := [app_a];
     open_for_write := true; systemctl_restart := CtlOk;
     requests_get := fun _ => HttpResponse 200 (Raise JSONDecodeError) |}.

(** The restart fails and leaves the unit inactive. *)
Definition env_restart_fails : env :=
  {| yaml_dump := toy_dump; consumer_jobs := [app_a];
     open_for_write := true; systemctl_restart := CtlFailed false;
     requests_get := fun _ => HttpRaises ConnectionError |}.

Definition exn_text (e : exn) : string :=
  match e with
  | CalledProcessError => "Command returned non-zero exit status 1."
  | RuntimeError => "Unsupported architecture: riscv64"
  | _ => "error"
  end.

Definition host_ok : Lifecycle.host :=
  {| Lifecycle.uname_machine := "x86_64";
     Lifecycle.provision_user_and_directories := Ok tt;
     Lifecycle.fetch_release := fun _ => Lifecycle.Fetched;
     Lifecycle.write_unit_file := true;
     Lifecycle.systemctl_daemon_reload := true;
     Lifecycle.systemctl_enable := true;
     Lifecycle.systemctl_start := CtlOk;
     Lifecycle.systemctl_stop := CtlOk;
     Lifecycle.str_exn := exn_text |}.

Definition host_riscv : Lifecycle.host :=
  {| Lifecycle.uname_machine := "riscv64";
     Lifecycle.provision_user_and_directories := Ok tt;
     Lifecycle.fetch_release := fun _ => Lifecycle.Fetched;
     Lifecycle.write_unit_file := true;
     Lifecycle.systemctl_daemon_reload := true;
     Lifecycle.systemctl_enable := true;
     Lifecycle.systemctl_start := CtlOk;
     Lifecycle.systemctl_stop := CtlOk;
     Lifecycle.str_exn := exn_text |}.

Definition host_cannot_enable : Lifecycle.host :=
  {| Lifecycle.uname_machine := "aarch64";
     Lifecycle.provision_user_and_directories := Ok tt;
     Lifecycle.fetch_release := fun _ => Lifecycle.Fetched;
     Lifecycle.write_unit_file := true;
     Lifecycle.systemctl_daemon_reload := true;
     Lifecycle.systemctl_enable := false;
     Lifecycle.systemctl_start := CtlOk;
     Lifecycle.systemctl_stop := CtlOk;
     Lifecycle.str_exn := exn_text |}.

Definition no_scrape_library : Lifecycle.libraries :=
  {| Lifecycle.HAS_PROMETHEUS_SCRAPE := false;
     Lifecycle.HAS_GRAFANA_SOURCE := true;
     Lifecycle.HAS_HELPERS := true |}.



Definition world_bare : world :=
  {| unit_status := UnknownStatus; bin_exists := false;
     service_active := false; config_file := None;
     http_requests := 0; trace := [] |}.

End MoreExamples.

(** ** Loops and dictionaries *)

Lemma for_each_app {A S} (f : S -> A -> result S) (l1 l2 : list A) (acc : S) :
  for_each f (l1 ++ l2) acc
  = rbind (for_each f l1 acc) (fun acc' => for_each f l2 acc').
Proof.
  revert acc. induction l1 as [|x l1 IH]; intros acc; simpl; [done|].
  destruct (f acc x) as [acc'|e]; simpl; [apply IH | done].
Qed.

(** A property of the accumulator that every round keeps holds at the end. *)
Lemma for_each_invariant {A S} (P : S -> Prop) (f : S -> A -> result S)
  (l : list A) (acc out : S) :
  P acc ->
  (forall s x s', P s -> f s x = Ok s' -> P s') ->
  for_each f l acc = Ok out ->
  P out.
Proof.
  intros Hacc Hstep. revert acc Hacc.
  induction l as [|x l IH]; intros acc Hacc Hrun; simpl in Hrun.
  - by inversion Hrun; subst.
  - destruct (f acc x) as [acc'|e] eqn:Hf; simpl in Hrun; [|done].
    eapply IH; [|exact Hrun]. by eapply Hstep.
Qed.

Lemma dict_get_set_same d k v :
  Py.dict_get (Py.dict_set d k v) k = Some v.
Proof.
  induction d as [|[k' v'] d IH]; simpl.
  - by rewrite String.eqb_refl.
  - destruct (String.eqb k' k) eqn:Hk; simpl; rewrite Hk; [done | exact IH].
Qed.

Lemma dict_get_set_other d k k' v :
  k <> k' ->
  Py.dict_get (Py.dict_set d k v) k' = Py.dict_get d k'.
Proof.
  intros Hne. induction d as [|[k0 v0] d IH]; simpl.
  - destruct (String.eqb k k') eqn:Hk; [|done].
    apply String.eqb_eq in Hk. done.
  - destruct (String.eqb k0 k) eqn:Hk0; simpl.
    + apply String.eqb_eq in Hk0. subst k0.
      destruct (String.eqb k k') eqn:Hk; [|done].
      apply String.eqb_eq in Hk. done.
    + by rewrite IH.
Qed.

(** ** The renderer *)

Section Renderer.
Import PrometheusConfig Descriptor.

Lemma resolve_target_str resolved_targets s :
  resolve_target resolved_targets (PStr s) = Ok (resolved_targets ++ [PStr s]).
Proof. unfold resolve_target. by destruct (String.prefix "*:" s). Qed.

(** Targets that are strings pass through unchanged and in order. *)
Lemma resolve_targets_strings ts acc :
  forallb is_str ts = true ->
  for_each resolve_target ts acc = Ok (acc ++ ts).
Proof.
  revert acc. induction ts as [|t ts IH]; intros acc Hts; simpl.
  - by rewrite app_nil_r.
  - simpl in Hts. apply andb_true_iff in Hts as [Ht Hts].
    destruct t; try done. rewrite resolve_target_str. simpl.
    rewrite IH by done. by rewrite <- app_assoc.
Qed.

Lemma process_static_config_wf processed g :
  wf_group g = true ->
  process_static_config processed g
  = Ok (if nonempty g then processed ++ [rendered g] else processed).
Proof.
  intros Hwf. destruct g as [| | | | |gd]; try done.
  unfold process_static_config, nonempty, rendered, targets, labels.
  simpl in *.
  destruct (Py.dict_get gd "targets") as [ts|] eqn:Hts; simpl.
  - destruct ts as [| | | |ts|]; try done. simpl.
    rewrite resolve_targets_strings by done. simpl.
    by destruct ts.
  - done.
Qed.

Lemma process_static_configs_wf gs processed :
  forallb wf_group gs = true ->
  for_each process_static_config gs processed
  = Ok (processed ++ map rendered (List.filter nonempty gs)).
Proof.
  revert processed. induction gs as [|g gs IH]; intros processed Hwf; simpl.
  - by rewrite app_nil_r.
  - simpl in Hwf. apply andb_true_iff in Hwf as [Hg Hgs].
    rewrite process_static_config_wf by done. simpl.
    rewrite IH by done. destruct (nonempty g); simpl; [|done].
    by rewrite <- app_assoc.
Qed.

Lemma copy_if_present_keeps job_data key cfg cfg' k :
  copy_if_present job_data key cfg = Ok cfg' ->
  k <> key ->
  Py.dict_get cfg' k = Py.dict_get cfg k.
Proof.
  intros Hcopy Hne. revert Hcopy. unfold copy_if_present.
  destruct (Py.contains job_data key) as [[|]|e]; simpl; [| |done].
  - destruct (Py.getitem job_data key) as [v|e]; simpl; [|done].
    intros [= <-]. by apply dict_get_set_other.
  - by intros [= <-].
Qed.

Lemma copy_if_present_dict d key cfg :
  exists cfg', copy_if_present (PDict d) key cfg = Ok cfg'.
Proof.
  unfold copy_if_present. simpl.
  destruct (Py.dict_get d key) as [v|] eqn:Hget.
  - rewrite bool_decide_eq_true_2 by eauto. simpl. eauto.
  - rewrite bool_decide_eq_false_2; [eauto|]. by intros [? ?].
Qed.

(** The head of the list is never touched by the loop. *)
Lemma add_jobs_head scrape_jobs first configs :
  exists rest, fold_left add_job scrape_jobs (first :: configs) = first :: rest.
Proof.
  revert configs. induction scrape_jobs as [|item jobs IH]; intros configs.
  - simpl. eauto.
  - simpl. unfold add_job at 2.
    destruct (_build_job_config (fst item) (snd item)) as [c|e].
    + destruct (Py.truthy c); [apply (IH (configs ++ [c])) | apply IH].
    + apply IH.
Qed.

Lemma add_job_contribution configs item :
  add_job configs item = configs ++ contribution item.
Proof.
  unfold add_job, contribution.
  destruct (_build_job_config (fst item) (snd item)) as [c|e].
  - destruct (Py.truthy c); [done | by rewrite app_nil_r].
  - by rewrite app_nil_r.
Qed.

Lemma add_jobs_contributions scrape_jobs configs :
  fold_left add_job scrape_jobs configs
  = configs ++ flat_map contribution scrape_jobs.
Proof.
  revert configs. induction scrape_jobs as [|item jobs IH]; intros configs.
  - simpl. by rewrite app_nil_r.
  - simpl. rewrite IH, add_job_contribution. by rewrite <- app_assoc.
Qed.

End Renderer.

Section RendererClaims.
Import PrometheusConfig Descriptor.

(** What [_build_job_config] returns for a descriptor of the data model: nothing
    when no group has targets, otherwise a job holding the groups that do. *)
Lemma build_job_config_wf job_name job_data :
  wf_job job_data = true ->
  let kept := List.filter nonempty (groups job_data) in
  match kept with
  | [] => _build_job_config job_name job_data = Ok PNone
  | _ :: _ =>
      exists cfg,
        _build_job_config job_name job_data = Ok (PDict cfg)
        /\ Py.dict_get cfg "job_name" = Some job_name
        /\ Py.dict_get cfg "static_configs" = Some (PList (map rendered kept))
  end.
Proof.
  intros Hwf. destruct job_data as [| | | | |d]; try done.
  assert (Hloop : for_each process_static_config (groups (PDict d)) []
                  = Ok (map rendered (List.filter nonempty (groups (PDict d))))).
  { simpl in Hwf |- *.
    destruct (Py.dict_get d "static_configs") as [[| | | |gs|]|]; try done.
    by rewrite process_static_configs_wf. }
  assert (Hiter : rbind (Py.get (PDict d) "static_configs" (PList [])) Py.iter
                  = Ok (groups (PDict d))).
  { simpl in Hwf |- *.
    by destruct (Py.dict_get d "static_configs") as [[| | | |gs|]|]. }
  unfold _build_job_config.
  destruct (Py.get (PDict d) "metrics_path" (PStr "/metrics")) as [mp|] eqn:Hmp;
    [|done].
  cbn [rbind].
  destruct (Py.get (PDict d) "static_configs" (PList [])) as [sc|] eqn:Hsc;
    [|done].
  cbn [rbind] in Hiter |- *. rewrite Hiter. cbn [rbind]. rewrite Hloop.
  cbn [rbind]. cbv zeta.
  destruct (List.filter nonempty (groups (PDict d))) as [|g kept]; [done|].
  cbn [map Py.truthy negb].
  set (base := [("job_name", job_name); ("metrics_path", mp);
                ("static_configs", PList (rendered g :: map rendered kept))]).
  destruct (copy_if_present_dict d "relabel_configs" base) as [c1 H1].
  destruct (copy_if_present_dict d "metric_relabel_configs" c1) as [c2 H2].
  rewrite H1. cbn [rbind]. rewrite H2. cbn [rbind].
  exists c2. split; [done|].
  split.
  - rewrite (copy_if_present_keeps _ _ _ _ "job_name" H2) by done.
    by rewrite (copy_if_present_keeps _ _ _ _ "job_name" H1) by done.
  - rewrite (copy_if_present_keeps _ _ _ _ "static_configs" H2) by done.
    by rewrite (copy_if_present_keeps _ _ _ _ "static_configs" H1) by done.
Qed.

(** C2: whatever the job collection (the empty one too) and whatever the
    configuration, the scrape-config list starts with the self-monitoring job,
    whose name is "prometheus", and the document's [scrape_configs] is that
    list. *)
Theorem C2_self_job_first (config : gmap string cfgval)
  (scrape_jobs : list (pyval * pyval)) :
  exists rest,
    _build_scrape_configs scrape_jobs = _build_self_monitoring_job :: rest
    /\ Py.getitem _build_self_monitoring_job "job_name" = Ok (PStr "prometheus")
    /\ Py.getitem (config_document config scrape_jobs) "scrape_configs"
       = Ok (PList (_build_self_monitoring_job :: rest)).
Proof.
  destruct (add_jobs_head scrape_jobs _build_self_monitoring_job [])
    as [rest Hrest].
  exists rest. split; [exact Hrest|]. split; [reflexivity|].
  unfold config_document, _build_scrape_configs. rewrite Hrest. reflexivity.
Qed.

(** C3: for a job descriptor of the data model, the groups without targets
    are dropped; when no group is left the job yields [None] and adds no
    scrape job; otherwise it adds exactly one scrape job, under its name, whose
    static configs are the groups with targets, rendered, in their order. *)
Theorem C3_empty_groups_filtered (job_name job_data : pyval) :
  wf_job job_data = true ->
  let kept := List.filter nonempty (groups job_data) in
  (kept = [] ->
   _build_job_config job_name job_data = Ok PNone
   /\ contribution (job_name, job_data) = [])
  /\ (kept <> [] ->
      exists cfg,
        _build_job_config job_name job_data = Ok (PDict cfg)
        /\ Py.dict_get cfg "job_name" = Some job_name
        /\ Py.dict_get cfg "static_configs" = Some (PList (map rendered kept))
        /\ contribution (job_name, job_data) = [PDict cfg]).
Proof.
  intros Hwf kept. pose proof (build_job_config_wf job_name job_data Hwf) as H.
  cbv zeta in H. fold kept in H. unfold contribution. cbn [fst snd].
  split.
  - intros Hnil. rewrite Hnil in H. by rewrite H.
  - intros Hne. destruct kept as [|g kept']; [done|].
    destruct H as (cfg & Hbuild & Hname & Hsc).
    exists cfg. rewrite Hbuild. repeat split; try done.
    destruct cfg; [done | reflexivity].
Qed.

(** C4: the list is the self-monitoring job followed by what each job adds, in
    order; a job whose build raises adds nothing and the list is the one the
    other jobs give; every job whose build returns a scrape job is in the list,
    so is every descriptor of the data model with a group that has targets. The
    function has no failure path of its own. *)
Theorem C4_bad_jobs_dropped (scrape_jobs : list (pyval * pyval)) :
  _build_scrape_configs scrape_jobs
  = _build_self_monitoring_job :: flat_map contribution scrape_jobs
  /\ (forall before bad after e,
        scrape_jobs = before ++ bad :: after ->
        _build_job_config (fst bad) (snd bad) = Raise e ->
        _build_scrape_configs scrape_jobs
        = _build_scrape_configs (before ++ after))
  /\ (forall item scrape_config,
        In item scrape_jobs ->
        _build_job_config (fst item) (snd item) = Ok scrape_config ->
        Py.truthy scrape_config = true ->
        In scrape_config (_build_scrape_configs scrape_jobs))
  /\ (forall item,
        In item scrape_jobs ->
        wf_job (snd item) = true ->
        List.filter nonempty (groups (snd item)) <> [] ->
        exists cfg,
          In (PDict cfg) (_build_scrape_configs scrape_jobs)
          /\ Py.dict_get cfg "job_name" = Some (fst item)).
Proof.
  assert (Heq : forall jobs, _build_scrape_configs jobs
                = _build_self_monitoring_job :: flat_map contribution jobs).
  { intros jobs. unfold _build_scrape_configs.
    by rewrite add_jobs_contributions. }
  assert (Hin : forall item scrape_config,
             In item scrape_jobs ->
             _build_job_config (fst item) (snd item) = Ok scrape_config ->
             Py.truthy scrape_config = true ->
             In scrape_config (_build_scrape_configs scrape_jobs)).
  { intros item c Hitem Hbuild Htruthy. rewrite Heq. right.
    apply in_flat_map. exists item. split; [done|].
    unfold contribution. rewrite Hbuild, Htruthy. by left. }
  split; [apply Heq|]. split; [|split].
  - intros before bad after e -> Hbad. rewrite !Heq. f_equal.
    rewrite !flat_map_app. simpl. unfold contribution at 2. by rewrite Hbad.
  - exact Hin.
  - intros [name data] Hitem Hwf Hne. cbn [fst snd] in *.
    pose proof (build_job_config_wf name data Hwf) as H. cbv zeta in H.
    destruct (List.filter nonempty (groups data)) as [|g kept]; [done|].
    destruct H as (cfg & Hbuild & Hname & _).
    exists cfg. split; [|done].
    apply (Hin (name, data)); [done | done |].
    destruct cfg; [done | reflexivity].
Qed.


End RendererClaims.

(** ** The status probe *)

Section ProbeLemmas.
Import Charm Probe.

Lemma after_requests_0 w : after_requests w 0 [] = w.
Proof.
  destruct w. unfold after_requests. simpl.
  by rewrite Nat.add_0_r, app_nil_r.
Qed.

Lemma after_requests_after w n m evs evs' :
  after_requests (after_requests w n evs) m evs'
  = after_requests w (n + m) (evs ++ evs').
Proof.
  unfold after_requests. simpl. by rewrite Nat.add_assoc, app_assoc.
Qed.

(** One attempt, whatever the answer: one request and at most a sleep, after
    which the loop either goes on with the attempts left or ends. *)
Lemma retry_loop_step max_retries url attempt rest E w :
  let evs :=
    EvHttpGet url 5
      :: match requests_get E (http_requests w) with
         | HttpRaises e =>
             if retryable e && (attempt <? max_retries - 1)%Z
             then [EvSleep 2] else []
         | HttpResponse status_code json =>
             match count_non_self json with
             | Raise e =>
                 if (status_code =? 200)%Z && retryable e
                    && (attempt <? max_retries - 1)%Z
                 then [EvSleep 2] else []
             | Ok _ => []
             end
         end in
  let w1 := after_requests w 1 evs in
  retry_loop max_retries url (attempt :: rest) E w
  = match requests_get E (http_requests w) with
    | HttpRaises e =>
        if retryable e then retry_loop max_retries url rest E w1
        else (Raise e, w1)
    | HttpResponse status_code json =>
        if (status_code =? 200)%Z then
          match count_non_self json with
          | Ok n => (Ok (Some n), w1)
          | Raise e =>
              if retryable e then retry_loop max_retries url rest E w1
              else (Raise e, w1)
          end
        else retry_loop max_retries url rest E w1
    end.
Proof.
  destruct w as [st inst act cf hr tr].
  cbn [retry_loop]. unfold attempt_once, try_except_only, bind, next_request,
    emit, ask, lift, ret, raise, after_requests.
  cbn [unit_status bin_exists service_active config_file http_requests trace].
  rewrite Nat.add_1_r.
  destruct (requests_get E hr) as [e|code json].
  - destruct (retryable e); cbn [andb]; [|done].
    destruct (attempt <? max_retries - 1)%Z; cbn; [|done].
    by rewrite <- app_assoc.
  - destruct (code =? 200)%Z; cbn [andb].
    + destruct (count_non_self json) as [n|e]; cbn; [done|].
      destruct (retryable e); cbn [andb]; [|done].
      destruct (attempt <? max_retries - 1)%Z; cbn; [|done].
      by rewrite <- app_assoc.
    + by destruct (count_non_self json).
Qed.

(** An attempt that cannot connect or times out: one request, a sleep of two
    seconds unless it was the last attempt, then the next attempt. *)
Lemma retry_loop_unreachable max_retries url attempt rest E w :
  unreachable (requests_get E (http_requests w)) = true ->
  retry_loop max_retries url (attempt :: rest) E w
  = retry_loop max_retries url rest E
      (after_requests w 1
         (EvHttpGet url 5
            :: if (attempt <? max_retries - 1)%Z then [EvSleep 2] else [])).
Proof.
  intros Hun. rewrite retry_loop_step.
  destruct (requests_get E (http_requests w)) as [e|code json]; [|done].
  simpl in Hun. by rewrite Hun.
Qed.

(** A response with another status than 200: one request, no sleep, then the
    next attempt. *)
Lemma retry_loop_other_status max_retries url attempt rest E w code json :
  requests_get E (http_requests w) = HttpResponse code json ->
  (code =? 200)%Z = false ->
  retry_loop max_retries url (attempt :: rest) E w
  = retry_loop max_retries url rest E
      (after_requests w 1 [EvHttpGet url 5]).
Proof.
  intros Hget Hcode. rewrite retry_loop_step, Hget, Hcode.
  by destruct (count_non_self json).
Qed.

(** A 200 response whose body can be counted ends the loop with the count. *)
Lemma retry_loop_200 max_retries url attempt rest E w json n :
  requests_get E (http_requests w) = HttpResponse 200 json ->
  count_non_self json = Ok n ->
  retry_loop max_retries url (attempt :: rest) E w
  = (Ok (Some n), after_requests w 1 [EvHttpGet url 5]).
Proof.
  intros Hget Hcount. rewrite retry_loop_step, Hget, Hcount. done.
Qed.

(** The loop asks at most once per attempt and does nothing but ask and
    sleep. *)
Lemma retry_loop_frame max_retries url attempts E w :
  exists n evs,
    snd (retry_loop max_retries url attempts E w) = after_requests w n evs
    /\ n <= length attempts
    /\ length (List.filter is_request evs) = n
    /\ forallb probe_event evs = true.
Proof.
  revert w. induction attempts as [|attempt rest IH]; intros w.
  - exists 0, []. simpl. by rewrite after_requests_0.
  - rewrite retry_loop_step.
    set (evs1 := EvHttpGet url 5 :: _).
    assert (Hevs1 : length (List.filter is_request evs1) = 1
                    /\ forallb probe_event evs1 = true).
    { subst evs1.
      destruct (requests_get E (http_requests w)) as [e|code json].
      - by destruct (retryable e && (attempt <? max_retries - 1)%Z).
      - destruct (count_non_self json) as [n|e]; [done|].
        by destruct ((code =? 200)%Z && retryable e
                     && (attempt <? max_retries - 1)%Z). }
    destruct Hevs1 as [Hreq1 Hev1].
    assert (Hgo : exists n evs,
               snd (retry_loop max_retries url rest E
                      (after_requests w 1 evs1))
               = after_requests w n evs
               /\ n <= length (attempt :: rest)
               /\ length (List.filter is_request evs) = n
               /\ forallb probe_event evs = true).
    { destruct (IH (after_requests w 1 evs1))
        as (n & evs & Hw & Hn & Hreq & Hev).
      exists (1 + n), (evs1 ++ evs). rewrite Hw, after_requests_after.
      split; [done|]. split; [simpl; lia|].
      rewrite List.filter_app, length_app, Hreq1, Hreq, forallb_app, Hev1, Hev.
      done. }
    assert (Hstop : forall r : result (option Z), exists n evs,
               snd (r, after_requests w 1 evs1) = after_requests w n evs
               /\ n <= length (attempt :: rest)
               /\ length (List.filter is_request evs) = n
               /\ forallb probe_event evs = true).
    { intros r. exists 1, evs1. split; [done|]. split; [simpl; lia|done]. }
    destruct (requests_get E (http_requests w)) as [e|code json].
    + destruct (retryable e); [exact Hgo | apply Hstop].
    + destruct (code =? 200)%Z; [|exact Hgo].
      destruct (count_non_self json) as [n|e]; [apply Hstop|].
      destruct (retryable e); [exact Hgo | apply Hstop].
Qed.

End ProbeLemmas.

Section ProbeClaims.
Import Charm Probe.

(** The probe, step by step: without a port it gives 0 at once; otherwise it
    runs the loop over three attempts and gives the loop's count, or 0 when
    the loop ran out or raised. *)
Lemma probe_unfold config E w :
  _get_active_targets_from_api config E w
  = match port_of (config_get config "listen-address" (CStr "0.0.0.0:9090")) with
    | Raise _ => (Ok 0%Z, w)
    | Ok port =>
        let run := retry_loop 3 (url_of port) (range 3) E w in
        (Ok (match fst run with Ok (Some n) => n | _ => 0%Z end), snd run)
    end.
Proof.
  unfold _get_active_targets_from_api, bind, try_except, lift, ret.
  destruct (port_of _) as [port|e]; [|done].
  fold (url_of port).
  destruct (retry_loop 3 (url_of port) (range 3) E w) as [[[n|]|e] w'];
    done.
Qed.

Lemma split_nonempty sep s : split sep s <> [].
Proof.
  induction s as [|c s IH]; simpl; [done|].
  destruct (Ascii.eqb c sep); [done|].
  by destruct (split sep s).
Qed.

Lemma last_of_some {A} (l : list A) :
  l <> [] -> exists a, List.last (map Some l) None = Some a.
Proof.
  induction l as [|x l IH]; [done|]. intros _.
  destruct l as [|y l]; [by exists x|].
  destruct IH as [a Ha]; [done|]. exists a. exact Ha.
Qed.

Lemma listen_address_has_port config :
  str_option config "listen-address" = true ->
  exists port,
    port_of (config_get config "listen-address" (CStr "0.0.0.0:9090"))
    = Ok port.
Proof.
  unfold str_option, config_get, port_of.
  destruct (config !! "listen-address") as [[s| |]|]; simpl; try done.
  - intros _.
    destruct (last_of_some (split ":" s) (split_nonempty ":" s)) as [p Hp].
    rewrite Hp. eauto.
  - intros _. vm_compute. eauto.
Qed.

(** The probe never raises, asks at most three times and touches nothing but
    the request counter and the trace. *)
Lemma probe_frame config E w :
  exists count n evs,
    _get_active_targets_from_api config E w
    = (Ok count, after_requests w n evs)
    /\ n <= 3
    /\ length (List.filter is_request evs) = n
    /\ forallb probe_event evs = true.
Proof.
  rewrite probe_unfold.
  destruct (port_of _) as [port|e].
  - destruct (retry_loop_frame 3 (url_of port) (range 3) E w)
      as (n & evs & Hw & Hn & Hreq & Hev).
    cbv zeta. rewrite Hw. eexists _, n, evs. repeat split; done.
  - exists 0%Z, 0, []. rewrite after_requests_0. split; [done|]. split; [lia|done].
Qed.

Lemma keep_non_self_wf non_self_targets t :
  wf_target t = true ->
  keep_non_self non_self_targets t
  = Ok (if labelled "prometheus" t then non_self_targets
        else non_self_targets ++ [t]).
Proof.
  intros Hwf. destruct t as [| | | | |d]; try done.
  unfold keep_non_self, labelled, job_label. simpl in *.
  destruct (Py.dict_get d "labels") as [[| | | | |ls]|]; try done.
  simpl. destruct (Py.dict_get ls "job") as [[| | |j| |]|]; simpl; try done.
  by destruct (String.eqb j "prometheus").
Qed.

Lemma keep_non_self_all ts acc :
  forallb wf_target ts = true ->
  for_each keep_non_self ts acc
  = Ok (acc ++ List.filter (fun t => negb (labelled "prometheus" t)) ts).
Proof.
  revert acc. induction ts as [|t ts IH]; intros acc Hwf; simpl.
  - by rewrite app_nil_r.
  - simpl in Hwf. apply andb_true_iff in Hwf as [Ht Hts].
    rewrite keep_non_self_wf by done. simpl.
    destruct (labelled "prometheus" t); simpl; rewrite IH by done; [done|].
    by rewrite <- app_assoc.
Qed.

Lemma count_non_self_wf body ts :
  active_targets body = Some ts ->
  forallb wf_target ts = true ->
  count_non_self (Ok body)
  = Ok (Z.of_nat (length (List.filter
                            (fun t => negb (labelled "prometheus" t)) ts))).
Proof.
  intros Hat Hwf. unfold active_targets in Hat. unfold count_non_self.
  cbn [rbind] in *.
  destruct (Py.get body "data" (PDict [])) as [inner|]; [|done].
  cbn [rbind] in *.
  destruct (Py.get inner "activeTargets" (PList [])) as [[| | | |l|]|];
    try done.
  injection Hat as ->. cbn [rbind Py.iter].
  by rewrite keep_non_self_all.
Qed.

(** C5, as the code has it: the probe never raises and never asks more than
    three times; when the three attempts cannot connect or time out there are
    exactly three requests with a sleep of 2 after the first and after the
    second, and the probe returns the bare count 0, which is also what it
    returns for an endpoint that answers with an empty active-target list. *)
Theorem C5_probe_bounded_retry (config : gmap string cfgval) (E : env)
  (w : world) :
  (exists count n evs,
     _get_active_targets_from_api config E w
     = (Ok count, after_requests w n evs)
     /\ n <= 3
     /\ length (List.filter is_request evs) = n
     /\ forallb probe_event evs = true)
  /\ (str_option config "listen-address" = true ->
      (forall i, i < 3 ->
                 unreachable (requests_get E (http_requests w + i)) = true) ->
      exists port,
        port_of (config_get config "listen-address" (CStr "0.0.0.0:9090"))
        = Ok port
        /\ _get_active_targets_from_api config E w
           = (Ok 0%Z,
              after_requests w 3
                [EvHttpGet (url_of port) 5; EvSleep 2;
                 EvHttpGet (url_of port) 5; EvSleep 2;
                 EvHttpGet (url_of port) 5]))
  /\ (str_option config "listen-address" = true ->
      forall E' w' body,
        requests_get E' (http_requests w') = HttpResponse 200 (Ok body) ->
        active_targets body = Some [] ->
        fst (_get_active_targets_from_api config E' w') = Ok 0%Z).
Proof.
  split; [apply probe_frame|]. split.
  2:{ intros Hstr E' w' body Hget Hbody.
      destruct (listen_address_has_port config Hstr) as [port Hport].
      rewrite probe_unfold, Hport. cbv zeta.
      change (range 3) with [0%Z; 1%Z; 2%Z].
      by rewrite (retry_loop_200 _ _ _ _ _ _ _ _ Hget
                    (count_non_self_wf body [] Hbody eq_refl)). }
  intros Hstr Hdown.
  destruct (listen_address_has_port config Hstr) as [port Hport].
  exists port. split; [done|].
  rewrite probe_unfold, Hport. cbv zeta.
  change (range 3) with [0%Z; 1%Z; 2%Z].
  rewrite retry_loop_unreachable
    by (specialize (Hdown 0 ltac:(lia)); by rewrite Nat.add_0_r in Hdown).
  rewrite retry_loop_unreachable
    by (specialize (Hdown 1 ltac:(lia)); done).
  rewrite retry_loop_unreachable
    by (specialize (Hdown 2 ltac:(lia)); simpl;
        by rewrite <- Nat.add_assoc).
  rewrite !after_requests_after. done.
Qed.

(** C6: when the first answer with status 200 comes within the three attempts
    (the attempts before it could not connect, timed out or had another
    status) and carries an active-target list of well-formed entries, the probe
    returns the number of entries whose job label is not exactly
    "prometheus". *)
Theorem C6_probe_excludes_self (config : gmap string cfgval) (E : env)
  (w : world) (k : nat) (body : pyval) (ts : list pyval) :
  str_option config "listen-address" = true ->
  k < 3 ->
  (forall i, i < k -> goes_on (requests_get E (http_requests w + i)) = true) ->
  requests_get E (http_requests w + k) = HttpResponse 200 (Ok body) ->
  active_targets body = Some ts ->
  forallb wf_target ts = true ->
  fst (_get_active_targets_from_api config E w)
  = Ok (Z.of_nat (length (List.filter
                            (fun t => negb (labelled "prometheus" t)) ts))).
Proof.
  intros Hstr Hk Hbefore Hget Hat Hwf.
  destruct (listen_address_has_port config Hstr) as [port Hport].
  rewrite probe_unfold, Hport. cbv zeta.
  change (range 3) with [0%Z; 1%Z; 2%Z].
  assert (Hskip : forall attempt rest w1,
             goes_on (requests_get E (http_requests w1)) = true ->
             exists evs,
               retry_loop 3 (url_of port) (attempt :: rest) E w1
               = retry_loop 3 (url_of port) rest E (after_requests w1 1 evs)).
  { intros attempt rest w1 Hgo.
    destruct (requests_get E (http_requests w1)) as [e|code json] eqn:Hw1.
    - eexists. apply retry_loop_unreachable. by rewrite Hw1.
    - eexists. eapply retry_loop_other_status; [exact Hw1|].
      simpl in Hgo. by destruct (code =? 200)%Z. }
  assert (Hhit : forall attempt rest w1,
             requests_get E (http_requests w1) = HttpResponse 200 (Ok body) ->
             fst (retry_loop 3 (url_of port) (attempt :: rest) E w1)
             = Ok (Some (Z.of_nat (length (List.filter
                      (fun t => negb (labelled "prometheus" t)) ts))))).
  { intros attempt rest w1 Hw1.
    by rewrite (retry_loop_200 _ _ _ _ _ _ _ _ Hw1
                  (count_non_self_wf body ts Hat Hwf)). }
  destruct k as [|[|[|k]]]; [| | |lia].
  - rewrite Nat.add_0_r in Hget. by rewrite Hhit.
  - destruct (Hskip 0%Z [1%Z; 2%Z] w) as [evs ->].
    { specialize (Hbefore 0 ltac:(lia)). by rewrite Nat.add_0_r in Hbefore. }
    by rewrite Hhit.
  - destruct (Hskip 0%Z [1%Z; 2%Z] w) as [evs ->].
    { specialize (Hbefore 0 ltac:(lia)). by rewrite Nat.add_0_r in Hbefore. }
    destruct (Hskip 1%Z [2%Z] (after_requests w 1 evs)) as [evs' ->].
    { by specialize (Hbefore 1 ltac:(lia)). }
    rewrite Hhit; [done|]. simpl. by rewrite <- Nat.add_assoc.
Qed.

End ProbeClaims.

(** ** The reconfiguration handlers *)

Section HandlerClaims.
Import Charm Probe.

Lemma probe_events_quiet evs :
  forallb probe_event evs = true ->
  List.filter is_restart evs = [] /\ List.filter is_write evs = [].
Proof.
  induction evs as [|ev evs IH]; [done|]. simpl.
  intros [Hev Hevs]%andb_true_iff. destruct (IH Hevs) as [Hr Hw].
  destruct ev; try done; simpl; by rewrite ?Hr, ?Hw.
Qed.

(** [_update_status] always returns; it sets the status, may ask systemd whether
    the unit is active and may probe, and touches nothing else. *)
Lemma update_status_frame config E w :
  exists st n evs,
    _update_status config E w
    = (Ok tt,
       {| unit_status := st; bin_exists := bin_exists w;
          service_active := service_active w; config_file := config_file w;
          http_requests := http_requests w + n;
          trace := trace w ++ evs |})
    /\ List.filter is_restart evs = []
    /\ List.filter is_write evs = [].
Proof.
  destruct w as [st inst act cf hr tr].
  unfold _update_status, PrometheusInstaller.is_installed,
    PrometheusInstaller.is_service_running.
  unfold bind, get_world, ret, emit, set_status.
  destruct inst, act; cbn -[_get_active_targets_from_api String.append str_of_Z].
  - match goal with |- context [_get_active_targets_from_api config E ?w1] =>
      destruct (probe_frame config E w1) as (c & n & evs & -> & _ & _ & Hev)
    end.
    destruct (probe_events_quiet evs Hev) as [Hr Hw].
    unfold after_requests. cbn -[String.append str_of_Z].
    exists (if (c =? 0)%Z then ActiveStatus "Prometheus ready (no targets)"
            else ActiveStatus ("Prometheus ready (scraping "
                                 ++ str_of_Z c ++ " targets)")),
      n, (EvSystemctl "is-active" :: evs).
    split.
    + destruct (c =? 0)%Z; cbn -[String.append str_of_Z];
        by rewrite <- app_assoc.
    + cbn. by rewrite Hr, Hw.
  - exists (BlockedStatus "Prometheus service not running"), 0,
      [EvSystemctl "is-active"].
    by rewrite Nat.add_0_r.
  - exists (BlockedStatus "Prometheus not installed"), 0, [].
    by rewrite Nat.add_0_r, app_nil_r.
  - exists (BlockedStatus "Prometheus not installed"), 0, [].
    by rewrite Nat.add_0_r, app_nil_r.
Qed.

(** The two handlers run the same steps. *)
Lemma on_targets_changed_same :
  _on_targets_changed = _on_config_changed.
Proof. reflexivity. Qed.


End HandlerClaims.

(** ** When a step of the reconfiguration fails *)

Section HandlerFailures.
Import Charm Probe Examples MoreExamples.


End HandlerFailures.

(** ** Pulling the jobs *)

Section JobsClaims.
Import Charm Descriptor.

Lemma key_eqb_str k s : key_eqb k (PStr s) = true <-> k = PStr s.
Proof.
  destruct k; simpl; try (split; [done | intros [=]]).
  rewrite String.eqb_eq. split; [by intros -> | by intros [= ->]].
Qed.

Lemma jobs_lookup_insert_str jobs s v :
  jobs_lookup (jobs_insert jobs (PStr s) v) (PStr s) = Some v.
Proof.
  induction jobs as [|[k0 v0] jobs IH]; simpl.
  - by rewrite String.eqb_refl.
  - destruct (key_eqb k0 (PStr s)) eqn:Hk; simpl; rewrite Hk; [done|exact IH].
Qed.

Lemma jobs_lookup_insert_other jobs k s v :
  key_eqb k (PStr s) = false ->
  jobs_lookup (jobs_insert jobs k v) (PStr s) = jobs_lookup jobs (PStr s).
Proof.
  intros Hk. induction jobs as [|[k0 v0] jobs IH]; simpl.
  - by rewrite Hk.
  - destruct (key_eqb k0 k) eqn:Hk0; simpl.
    + destruct (key_eqb k0 (PStr s)) eqn:Hs; [|done].
      apply key_eqb_str in Hs. subst k0.
      assert (k = PStr s) as ->.
      { destruct k; simpl in Hk0; try done.
        apply String.eqb_eq in Hk0. by subst. }
      simpl in Hk. by rewrite String.eqb_refl in Hk.
    + by rewrite IH.
Qed.

Lemma count_insert_other jobs k v :
  key_eqb k (PStr "unknown") = false ->
  length (List.filter keyed_unknown (jobs_insert jobs k v))
  = length (List.filter keyed_unknown jobs).
Proof.
  intros Hk. unfold keyed_unknown.
  induction jobs as [|[k0 v0] jobs IH]; cbn [jobs_insert List.filter fst].
  - by rewrite Hk.
  - destruct (key_eqb k0 k) eqn:Hk0; cbn [List.filter fst];
      destruct (key_eqb k0 (PStr "unknown")); cbn [length];
      by rewrite ?IH.
Qed.

Lemma count_insert_unknown jobs v :
  length (List.filter keyed_unknown jobs) <= 1 ->
  length (List.filter keyed_unknown (jobs_insert jobs (PStr "unknown") v)) = 1.
Proof.
  unfold keyed_unknown.
  induction jobs as [|[k0 v0] jobs IH]; cbn [jobs_insert List.filter fst].
  - intros _. reflexivity.
  - destruct (key_eqb k0 (PStr "unknown")) eqn:Hk0;
      cbn [List.filter fst length]; rewrite ?Hk0; cbn [length].
    + lia.
    + exact IH.
Qed.

(** The name a job is filed under. *)
Lemma store_job_key jobs job out :
  store_job jobs job = Ok out ->
  exists k, out = jobs_insert jobs k job
            /\ (lands_on_unknown job = true -> k = PStr "unknown")
            /\ (lands_on_unknown job = false ->
                key_eqb k (PStr "unknown") = false).
Proof.
  unfold store_job. destruct job as [| | | | |d]; try done. simpl.
  destruct (Py.dict_get d "job_name") as [name|]; simpl.
  - destruct (hashable name) eqn:Hh; [|done]. intros [= <-].
    exists name. split; [done|].
    destruct name as [| | |s| |]; simpl; try done.
    split.
    + intros Hs. apply String.eqb_eq in Hs. by subst.
    + done.
  - intros [= <-]. exists (PStr "unknown"). done.
Qed.

Lemma store_job_count jobs job out :
  store_job jobs job = Ok out ->
  length (List.filter keyed_unknown jobs) <= 1 ->
  length (List.filter keyed_unknown out) <= 1.
Proof.
  intros Hstore Hle.
  destruct (store_job_key _ _ _ Hstore) as (k & -> & Hyes & Hno).
  destruct (lands_on_unknown job).
  - rewrite Hyes by done. by rewrite count_insert_unknown.
  - by rewrite count_insert_other by auto.
Qed.

(** Jobs that do not land on "unknown" leave that entry alone. *)
Lemma store_others jobs_after acc out :
  forallb (fun j => negb (lands_on_unknown j)) jobs_after = true ->
  for_each store_job jobs_after acc = Ok out ->
  jobs_lookup out (PStr "unknown") = jobs_lookup acc (PStr "unknown")
  /\ length (List.filter keyed_unknown out)
     = length (List.filter keyed_unknown acc).
Proof.
  revert acc. induction jobs_after as [|j js IH]; intros acc Hall Hrun.
  - simpl in Hrun. by injection Hrun as <-.
  - simpl in Hall, Hrun. apply andb_true_iff in Hall as [Hj Hjs].
    destruct (store_job acc j) as [acc'|] eqn:Hstore; [|done].
    simpl in Hrun. destruct (IH acc' Hjs Hrun) as [-> ->].
    destruct (store_job_key _ _ _ Hstore) as (k & -> & _ & Hno).
    apply negb_true_iff in Hj. specialize (Hno Hj).
    by rewrite jobs_lookup_insert_other, count_insert_other.
Qed.

(** C9: a job without a name is filed under "unknown"; after the pull, the
    collection has exactly one entry keyed "unknown" and it holds the last job
    that had no name or was named "unknown". *)
Theorem C9_nameless_jobs_collide (E : env) (w w' : world)
  (jobs : list (pyval * pyval)) (before after : list pyval) (job : pyval) :
  consumer_jobs E = before ++ job :: after ->
  lands_on_unknown job = true ->
  forallb (fun j => negb (lands_on_unknown j)) after = true ->
  _get_scrape_jobs E w = (Ok jobs, w') ->
  (forall acc j, nameless j = true ->
                 store_job acc j = Ok (jobs_insert acc (PStr "unknown") j))
  /\ jobs_lookup jobs (PStr "unknown") = Some job
  /\ length (List.filter keyed_unknown jobs) = 1.
Proof.
  intros Hjobs Hjob Hafter Hrun. split.
  { intros acc j Hj. destruct j as [| | | | |d]; try done.
    unfold store_job. simpl in *.
    by destruct (Py.dict_get d "job_name"). }
  unfold _get_scrape_jobs, bind, ask, lift in Hrun.
  injection Hrun as Hrun _. rewrite Hjobs, for_each_app in Hrun.
  destruct (for_each store_job before []) as [acc|] eqn:Hbefore; [|done].
  cbn [rbind for_each] in Hrun.
  destruct (store_job acc job) as [acc'|] eqn:Hstore; [|done].
  cbn [rbind] in Hrun.
  destruct (store_others _ _ _ Hafter Hrun) as [-> ->].
  destruct (store_job_key _ _ _ Hstore) as (k & -> & Hyes & _).
  rewrite (Hyes Hjob). split; [apply jobs_lookup_insert_str|].
  apply count_insert_unknown.
  apply (for_each_invariant
           (fun jobs0 => length (List.filter keyed_unknown jobs0) <= 1)
           store_job before [] acc); [simpl; lia | | exact Hbefore].
  intros s x s' Hs Hx. by eapply store_job_count.
Qed.

End JobsClaims.

(** ** Writing the configuration *)

Section DocumentClaims.
Import PrometheusConfig.

(** C8: the document, and the file once written, are the same for any two
    runs that share the serializer, the job collection and the three timing
    options, whatever the rest of the configuration, of the surroundings and of
    the world (what the file held before, the status, the trace). *)
Theorem C8_render_deterministic (config1 config2 : gmap string cfgval)
  (scrape_jobs : list (pyval * pyval)) (E1 E2 : env) (w1 w2 : world) :
  yaml_dump E1 = yaml_dump E2 ->
  open_for_write E1 = true ->
  open_for_write E2 = true ->
  config1 !! "scrape-interval" = config2 !! "scrape-interval" ->
  config1 !! "scrape-timeout" = config2 !! "scrape-timeout" ->
  config1 !! "evaluation-interval" = config2 !! "evaluation-interval" ->
  config_document config1 scrape_jobs = config_document config2 scrape_jobs
  /\ config_file (snd (generate_config config1 scrape_jobs E1 w1))
     = Some (yaml_dump E1 (config_document config1 scrape_jobs))
  /\ config_file (snd (generate_config config1 scrape_jobs E1 w1))
     = config_file (snd (generate_config config2 scrape_jobs E2 w2)).
Proof.
  intros Hdump Hopen1 Hopen2 Hi Ht He.
  assert (Hdoc : config_document config1 scrape_jobs
                 = config_document config2 scrape_jobs).
  { unfold config_document, _build_global_config, config_get.
    by rewrite Hi, Ht, He. }
  assert (Hfile : forall config E w,
             open_for_write E = true ->
             config_file (snd (generate_config config scrape_jobs E w))
             = Some (yaml_dump E (config_document config scrape_jobs))).
  { intros config E w Hopen. unfold generate_config, bind, ask.
    rewrite Hopen. reflexivity. }
  split; [exact Hdoc|]. split; [by apply Hfile|].
  rewrite !Hfile by done. by rewrite Hdoc, Hdump.
Qed.

End DocumentClaims.

(** ** The self-monitoring target and the listen address *)

Section ListenAddress.
Import PrometheusConfig PrometheusInstaller Charm Probe Examples.

(** C1 at a configuration that sets [listen-address] to 0.0.0.0:9100: the
    self-monitoring job has one static config with the one target
    "localhost:9090", it heads the rendered list, while the process is started
    with [--web.listen-address=0.0.0.0:9100] and the status probe asks port
    9100: the target names port 9090, where the process does not listen. *)
Theorem C1_self_target_ignores_listen_address :
  Py.getitem _build_self_monitoring_job "static_configs"
  = Ok (PList [PDict [("targets", PList [PStr "localhost:9090"])]])
  /\ Py.getitem (config_document config_9100 []) "scrape_configs"
     = Ok (PList [_build_self_monitoring_job])
  /\ List.In "--web.listen-address=0.0.0.0:9100" (service_args config_9100)
  /\ port_of (config_get config_9100 "listen-address" (CStr "0.0.0.0:9090"))
     = Ok "9100"
  /\ port_of (CStr "localhost:9090") = Ok "9090"
  /\ (exists n,
        _get_active_targets_from_api config_9100 env_down world0
        = (Ok 0%Z,
           after_requests world0 n
             [EvHttpGet "http://localhost:9100/api/v1/targets" 5; EvSleep 2;
              EvHttpGet "http://localhost:9100/api/v1/targets" 5; EvSleep 2;
              EvHttpGet "http://localhost:9100/api/v1/targets" 5])).
Proof.
  split; [reflexivity|]. split; [reflexivity|].
  split; [vm_compute; tauto|]. split; [reflexivity|]. split; [reflexivity|].
  exists 3. reflexivity.
Qed.

End ListenAddress.

(** ** What the probe's result does not say *)

Section Reachability.
Import Charm Examples.

(** C5 as stated fails: with the endpoint down and with the endpoint up but
    without targets the probe returns the same value, 0, so nothing in what it
    returns classifies the endpoint as unreachable or reachable. *)
Lemma C5_result_has_no_reachability :
  ~ (exists reachable : result Z -> bool,
       reachable
         (fst (_get_active_targets_from_api ∅ env_down world0)) = false
       /\ reachable
            (fst (_get_active_targets_from_api ∅ env_idle world0)) = true).
Proof.
  intros (reachable & Hdown & Hidle).
  change (fst (_get_active_targets_from_api ∅ env_idle world0))
    with (fst (_get_active_targets_from_api ∅ env_down world0)) in Hidle.
  congruence.
Qed.

End Reachability.

(** ** The statements at concrete inputs *)

Section Witnesses.
Import PrometheusConfig PrometheusInstaller Charm Probe Descriptor Examples.

(** C3 at [app_a]: of its three groups the one without targets is dropped. *)
Lemma C3_witness :
  wf_job app_a = true
  /\ exists cfg,
      _build_job_config (PStr "app-a") app_a = Ok (PDict cfg)
      /\ Py.dict_get cfg "static_configs"
         = Some (PList [rendered group_a; rendered group_bare])
      /\ contribution (PStr "app-a", app_a) = [PDict cfg].
Proof.
  split; [reflexivity|].
  destruct (C3_empty_groups_filtered (PStr "app-a") app_a eq_refl)
    as [_ Hkept].
  destruct Hkept as (cfg & Hbuild & _ & Hgroups & Hadds); [discriminate|].
  exists cfg. split; [exact Hbuild|]. split; [exact Hgroups | exact Hadds].
Defined.

(** C4 at three jobs of which the second raises: the list is the one the
    other two give. *)
Lemma C4_witness :
  _build_job_config (PStr "app-bad") app_bad = Raise AttributeError
  /\ _build_scrape_configs three_jobs
     = _build_scrape_configs [(PStr "app-a", app_a); (PStr "app-b", app_b)]
  /\ length (_build_scrape_configs three_jobs) = 3.
Proof.
  split; [reflexivity|]. split; [|reflexivity].
  exact (proj1 (proj2 (C4_bad_jobs_dropped three_jobs))
           [(PStr "app-a", app_a)] (PStr "app-bad", app_bad)
           [(PStr "app-b", app_b)] AttributeError eq_refl eq_refl).
Defined.

(** C5 at an endpoint that refuses every connection. *)
Lemma C5_witness :
  str_option ∅ "listen-address" = true
  /\ (forall i, i < 3 ->
                unreachable (requests_get env_down (http_requests world0 + i))
                = true)
  /\ exists port,
      port_of (config_get ∅ "listen-address" (CStr "0.0.0.0:9090")) = Ok port
      /\ _get_active_targets_from_api ∅ env_down world0
         = (Ok 0%Z,
            after_requests world0 3
              [EvHttpGet (url_of port) 5; EvSleep 2;
               EvHttpGet (url_of port) 5; EvSleep 2;
               EvHttpGet (url_of port) 5]).
Proof.
  split; [reflexivity|]. split; [intros i _; reflexivity|].
  exact (proj1 (proj2 (C5_probe_bounded_retry ∅ env_down world0)) eq_refl
           (fun i _ => eq_refl)).
Defined.

(** C6 at a list with the jobs prometheus, prometheus-2 and node, answered
    on the second attempt: the count is 2. *)
Lemma C6_witness :
  active_targets
    (PDict [("status", PStr "success");
            ("data", PDict [("activeTargets", PList three_targets)])])
  = Some three_targets
  /\ forallb wf_target three_targets = true
  /\ fst (_get_active_targets_from_api ∅ env_three world0) = Ok 2%Z.
Proof.
  split; [reflexivity|]. split; [reflexivity|].
  refine (C6_probe_excludes_self ∅ env_three world0 1 _ three_targets
            eq_refl _ _ eq_refl eq_refl eq_refl).
  - lia.
  - intros i Hi. assert (i = 0) as -> by lia. reflexivity.
Defined.


(** C8 at two configurations that differ outside the timing options, with
    different surroundings and worlds. *)
Lemma C8_witness :
  config_fast <> config_fast_debug
  /\ config_file (snd (generate_config config_fast three_jobs env_down
                         world_written))
     = config_file (snd (generate_config config_fast_debug three_jobs env_idle
                           world_stopped)).
Proof.
  split.
  - intros Heq.
    assert (H : config_fast !! "log-level" = config_fast_debug !! "log-level")
      by (by rewrite Heq).
    vm_compute in H. discriminate H.
  - exact (proj2 (proj2 (C8_render_deterministic config_fast config_fast_debug
                           three_jobs env_down env_idle world_written
                           world_stopped eq_refl eq_refl eq_refl eq_refl
                           eq_refl eq_refl))).
Defined.

(** C9 at a pull with two nameless jobs and one named unknown: the entry
    holds the second nameless job. *)
Lemma C9_witness :
  nameless no_name_1 = true
  /\ nameless no_name_2 = true
  /\ exists jobs,
      _get_scrape_jobs env_nameless world0 = (Ok jobs, world0)
      /\ jobs_lookup jobs (PStr "unknown") = Some no_name_2
      /\ length (List.filter keyed_unknown jobs) = 1.
Proof.
  split; [reflexivity|]. split; [reflexivity|].
  eexists. split; [reflexivity|].
  exact (proj2 (C9_nameless_jobs_collide env_nameless world0 world0 _
                  [no_name_1; named_unknown; app_a] [app_b] no_name_2
                  eq_refl eq_refl eq_refl eq_refl)).
Defined.


End Witnesses.

(** ** More on the renderer *)

Section RendererShape.
Import PrometheusConfig Descriptor Shape.

Lemma dict_set_fresh d k v :
  Py.dict_get d k = None -> Py.dict_set d k v = d ++ [(k, v)].
Proof.
  induction d as [|[k0 v0] d IH]; simpl; [done|].
  destruct (String.eqb k0 k); [done|]. intros Hget. by rewrite IH.
Qed.

Lemma copy_if_present_of_dict d key cfg :
  copy_if_present (PDict d) key cfg
  = Ok (match Py.dict_get d key with
        | Some v => Py.dict_set cfg key v
        | None => cfg
        end).
Proof.
  unfold copy_if_present. simpl.
  destruct (Py.dict_get d key) as [v|] eqn:Hget.
  - by rewrite bool_decide_eq_true_2 by eauto.
  - rewrite bool_decide_eq_false_2; [done|]. by intros [? ?].
Qed.

(** A loop that meets an element its body always raises on raises. *)
Lemma for_each_raises {A S} (f : S -> A -> result S) (l : list A) (x : A)
  (acc : S) :
  In x l ->
  (forall s, exists e, f s x = Raise e) ->
  exists e, for_each f l acc = Raise e.
Proof.
  intros Hin Hbad. revert acc.
  induction l as [|y l IH]; intros acc; [done|]. simpl.
  destruct (f acc y) as [acc'|e] eqn:Hf; simpl; [|eauto].
  destruct Hin as [-> | Hin]; [|by apply IH].
  destruct (Hbad acc) as [e He]. congruence.
Qed.

(** X1: a scrape job built from a mapping has, in this order, the keys
    [job_name] (the key of the job), [metrics_path] (the descriptor's, or
    "/metrics"), [static_configs], then [relabel_configs] and
    [metric_relabel_configs] exactly when the descriptor has them, with the
    descriptor's values. *)
Theorem built_job_shape (job_name : pyval) (d cfg : list (string * pyval)) :
  _build_job_config job_name (PDict d) = Ok (PDict cfg) ->
  exists static_configs,
    cfg
    = [("job_name", job_name);
       ("metrics_path",
        default (PStr "/metrics") (Py.dict_get d "metrics_path"));
       ("static_configs", PList static_configs)]
      ++ match Py.dict_get d "relabel_configs" with
         | Some v => [("relabel_configs", v)]
         | None => []
         end
      ++ match Py.dict_get d "metric_relabel_configs" with
         | Some v => [("metric_relabel_configs", v)]
         | None => []
         end.
Proof.
  unfold _build_job_config. cbn [Py.get rbind].
  destruct (Py.iter _) as [gs|]; [|done]. cbn [rbind].
  destruct (for_each process_static_config gs []) as [processed|]; [|done].
  cbn [rbind]. destruct (negb (Py.truthy (PList processed))); [done|].
  cbv zeta. rewrite copy_if_present_of_dict. cbn [rbind].
  rewrite copy_if_present_of_dict. cbn [rbind].
  intros [= <-]. exists processed.
  destruct (Py.dict_get d "relabel_configs") as [v1|];
    destruct (Py.dict_get d "metric_relabel_configs") as [v2|]; reflexivity.
Qed.

Lemma resolve_targets_strings_only ts acc out :
  forallb is_str acc = true ->
  for_each resolve_target ts acc = Ok out ->
  forallb is_str out = true /\ length acc <= length out.
Proof.
  revert acc. induction ts as [|t ts IH]; intros acc Hacc Hrun; simpl in Hrun.
  - injection Hrun as <-. done.
  - destruct t as [| | |s| |]; try done.
    rewrite resolve_target_str in Hrun. simpl in Hrun.
    destruct (IH (acc ++ [PStr s])) as [Hout Hlen]; [|done|].
    + by rewrite forallb_app, Hacc.
    + split; [done|]. rewrite length_app in Hlen. simpl in Hlen. lia.
Qed.

(** X2: whatever the descriptor holds, every static config of a scrape job
    built from it is a mapping with the keys [targets] and [labels], in this
    order, whose targets are strings and not empty; and there is at least one
    static config. *)
Theorem built_groups_well_formed (job_name job_data : pyval)
  (cfg : list (string * pyval)) :
  _build_job_config job_name job_data = Ok (PDict cfg) ->
  exists static_configs,
    Py.dict_get cfg "static_configs" = Some (PList static_configs)
    /\ static_configs <> []
    /\ forallb wf_rendered static_configs = true.
Proof.
  intros Hbuild. unfold _build_job_config in Hbuild.
  destruct (Py.get job_data "metrics_path" (PStr "/metrics")) as [mp|];
    [|done].
  cbn [rbind] in Hbuild.
  destruct (Py.get job_data "static_configs" (PList [])) as [sc|]; [|done].
  cbn [rbind] in Hbuild.
  destruct (Py.iter sc) as [gs|]; [|done]. cbn [rbind] in Hbuild.
  destruct (for_each process_static_config gs []) as [processed|] eqn:Hloop;
    [|done].
  cbn [rbind] in Hbuild.
  destruct (negb (Py.truthy (PList processed))) eqn:Hempty; [done|].
  cbv zeta in Hbuild.
  destruct (copy_if_present job_data "relabel_configs" _) as [c1|] eqn:H1;
    [|done].
  cbn [rbind] in Hbuild.
  destruct (copy_if_present job_data "metric_relabel_configs" c1) as [c2|]
    eqn:H2; [|done].
  cbn [rbind] in Hbuild. injection Hbuild as <-.
  exists processed. split.
  { rewrite (copy_if_present_keeps _ _ _ _ "static_configs" H2) by done.
    by rewrite (copy_if_present_keeps _ _ _ _ "static_configs" H1) by done. }
  split; [by destruct processed|].
  apply (for_each_invariant (fun acc => forallb wf_rendered acc = true)
           process_static_config gs [] processed); [done| |exact Hloop].
  intros s g s' Hs Hstep. unfold process_static_config in Hstep.
  destruct (Py.get g "targets" (PList [])) as [ts|]; [|done].
  cbn [rbind] in Hstep.
  destruct (Py.get g "labels" (PDict [])) as [ls|]; [|done].
  cbn [rbind] in Hstep.
  destruct (Py.iter ts) as [tseq|]; [|done]. cbn [rbind] in Hstep.
  destruct (for_each resolve_target tseq []) as [rs|] eqn:Hrs; [|done].
  cbn [rbind Py.truthy] in Hstep.
  destruct (resolve_targets_strings_only tseq [] rs eq_refl Hrs) as [Hstr _].
  destruct rs as [|r rs]; injection Hstep as <-; [done|].
  rewrite forallb_app, Hs. cbn [forallb wf_rendered andb] in Hstr |- *.
  by rewrite Hstr.
Qed.

End RendererShape.

Section RendererOrder.
Import PrometheusConfig Descriptor Shape.

(** What a build returns is [None] or a mapping filed under the job's key. *)
Lemma build_result_named job_name job_data c :
  _build_job_config job_name job_data = Ok c ->
  c = PNone
  \/ exists cfg, c = PDict cfg /\ Py.dict_get cfg "job_name" = Some job_name.
Proof.
  unfold _build_job_config.
  destruct (Py.get job_data "metrics_path" (PStr "/metrics")) as [mp|];
    [|done].
  cbn [rbind].
  destruct (Py.get job_data "static_configs" (PList [])) as [sc|]; [|done].
  cbn [rbind].
  destruct (Py.iter sc) as [gs|]; [|done]. cbn [rbind].
  destruct (for_each process_static_config gs []) as [processed|]; [|done].
  cbn [rbind].
  destruct (negb (Py.truthy (PList processed))); [intros [= <-]; by left|].
  cbv zeta.
  destruct (copy_if_present job_data "relabel_configs" _) as [c1|] eqn:H1;
    [|done].
  cbn [rbind].
  destruct (copy_if_present job_data "metric_relabel_configs" c1) as [c2|]
    eqn:H2; [|done].
  cbn [rbind]. intros [= <-]. right. exists c2. split; [done|].
  rewrite (copy_if_present_keeps _ _ _ _ "job_name" H2) by done.
  by rewrite (copy_if_present_keeps _ _ _ _ "job_name" H1) by done.
Qed.

Lemma contribution_cases item :
  contribution item = []
  \/ exists cfg,
      contribution item = [PDict cfg]
      /\ job_name_of (PDict cfg) = Some (fst item).
Proof.
  unfold contribution.
  destruct (_build_job_config (fst item) (snd item)) as [c|e] eqn:Hbuild;
    [|by left].
  destruct (build_result_named _ _ _ Hbuild) as [-> | (cfg & -> & Hname)];
    [by left|].
  destruct (Py.truthy (PDict cfg)); [|by left].
  right. by exists cfg.
Qed.

(** X3: a descriptor gives at most one scrape job, under its own key, and
    the scrape jobs after the self-monitoring one follow the order of the
    collection: their names are a subsequence of its keys. *)
Theorem scrape_jobs_follow_input (scrape_jobs : list (pyval * pyval)) :
  exists rest,
    _build_scrape_configs scrape_jobs = _build_self_monitoring_job :: rest
    /\ length rest <= length scrape_jobs
    /\ sublist (map job_name_of rest)
         (map (fun item => Some (fst item)) scrape_jobs).
Proof.
  exists (flat_map contribution scrape_jobs).
  split.
  { unfold _build_scrape_configs. by rewrite add_jobs_contributions. }
  induction scrape_jobs as [|item jobs [IHlen IHsub]]; [done|].
  cbn [flat_map map length].
  destruct (contribution_cases item) as [-> | (cfg & -> & Hname)].
  - split; [simpl; lia|]. by apply sublist_cons.
  - cbn [app map length]. split; [lia|]. rewrite Hname.
    by apply sublist_skip.
Qed.

Lemma count_named_in name c l :
  In c l -> named name c = true ->
  1 <= length (List.filter (named name) l).
Proof.
  induction l as [|x l IH]; [done|]. intros [-> | Hin] Hc; simpl.
  - rewrite Hc. simpl. lia.
  - destruct (named name x); simpl; [lia | by apply IH].
Qed.

(** X4: the name "prometheus" is not reserved: a descriptor of the data
    model filed under it, with a group that has targets, is rendered besides
    the self-monitoring job, so that two scrape jobs carry that name. *)
Theorem prometheus_name_not_reserved (scrape_jobs : list (pyval * pyval))
  (job_data : pyval) :
  In (PStr "prometheus", job_data) scrape_jobs ->
  wf_job job_data = true ->
  List.filter nonempty (groups job_data) <> [] ->
  2 <= length (List.filter (named "prometheus")
                 (_build_scrape_configs scrape_jobs)).
Proof.
  intros Hin Hwf Hne.
  unfold _build_scrape_configs. rewrite add_jobs_contributions.
  cbn [app List.filter]. change (named "prometheus" _build_self_monitoring_job)
    with true. cbn [length].
  apply le_n_S.
  pose proof (build_job_config_wf (PStr "prometheus") job_data Hwf) as Hbuild.
  cbv zeta in Hbuild.
  destruct (List.filter nonempty (groups job_data)) as [|g kept]; [done|].
  destruct Hbuild as (cfg & Hbuild & Hname & _).
  apply (count_named_in _ (PDict cfg)).
  - apply in_flat_map. exists (PStr "prometheus", job_data). split; [done|].
    unfold contribution. cbn [fst snd]. rewrite Hbuild.
    destruct cfg; [done|]. by left.
  - unfold named, job_name_of. by rewrite Hname.
Qed.

(** X5: one target that is not a string, in one group, makes the build of
    the whole job raise, so that the job adds nothing, whatever its other
    groups hold. *)
Theorem bad_target_drops_job (job_name : pyval) (d gd : list (string * pyval))
  (gs ts : list pyval) (t : pyval) :
  Py.dict_get d "static_configs" = Some (PList gs) ->
  In (PDict gd) gs ->
  Py.dict_get gd "targets" = Some (PList ts) ->
  In t ts ->
  is_str t = false ->
  (exists e, _build_job_config job_name (PDict d) = Raise e)
  /\ contribution (job_name, PDict d) = [].
Proof.
  intros Hsc Hg Hts Ht Hstr.
  assert (Hraise : exists e, _build_job_config job_name (PDict d) = Raise e).
  { unfold _build_job_config. cbn [Py.get rbind]. rewrite Hsc. cbn.
    destruct (for_each_raises process_static_config gs (PDict gd) [] Hg)
      as [e He].
    - intros acc. unfold process_static_config. cbn [Py.get rbind].
      rewrite Hts. cbn.
      destruct (for_each_raises resolve_target ts t [] Ht) as [e He].
      + intros s. destruct t; try done; by exists AttributeError.
      + rewrite He. by exists e.
    - rewrite He. by exists e. }
  split; [exact Hraise|]. destruct Hraise as [e He].
  unfold contribution. cbn [fst snd]. by rewrite He.
Qed.

End RendererOrder.

(** ** More on pulling the jobs *)

Section JobsTable.
Import Charm Shape.

Lemma key_eqb_sym a b : key_eqb a b = key_eqb b a.
Proof.
  destruct a as [|x|n|s|l|d], b as [|y|m|t|l'|d']; simpl; try done;
    first [by destruct x, y | apply Z.eqb_sym | apply String.eqb_sym].
Qed.

Lemma key_eqb_trans a b c :
  key_eqb a b = true -> key_eqb b c = true -> key_eqb a c = true.
Proof.
  destruct a, b, c; simpl; try done;
    rewrite ?Z.eqb_eq, ?String.eqb_eq, ?eqb_true_iff;
    try congruence; try (intros; subst; done); try lia.
  all: intros; repeat match goal with b : bool |- _ => destruct b end; lia.
Qed.

Lemma key_eqb_refl k : hashable k = true -> key_eqb k k = true.
Proof.
  destruct k; simpl; try done; intros _.
  - by destruct b.
  - apply Z.eqb_refl.
  - apply String.eqb_refl.
Qed.

Lemma key_eqb_apart k0 k' k :
  key_eqb k' k = true -> key_eqb k0 k' = false -> key_eqb k0 k = false.
Proof.
  intros Hk Hk0. destruct (key_eqb k0 k) eqn:H0k; [|done].
  rewrite <- Hk0. symmetry. apply (key_eqb_trans k0 k k'); [done|].
  by rewrite key_eqb_sym.
Qed.

Lemma key_eqb_apart_l k0 k' k :
  key_eqb k0 k' = true -> key_eqb k' k = false -> key_eqb k0 k = false.
Proof.
  intros Hk0 Hk. destruct (key_eqb k0 k) eqn:H0k; [|done].
  rewrite <- Hk. symmetry. apply (key_eqb_trans k' k0 k); [|done].
  by rewrite key_eqb_sym.
Qed.

Lemma jobs_lookup_insert_eq jobs k' k v :
  key_eqb k' k = true ->
  jobs_lookup (jobs_insert jobs k' v) k = Some v.
Proof.
  intros Hk. induction jobs as [|[k0 v0] jobs IH]; simpl.
  - by rewrite Hk.
  - destruct (key_eqb k0 k') eqn:Hk0; simpl.
    + by rewrite (key_eqb_trans k0 k' k).
    + by rewrite (key_eqb_apart k0 k' k).
Qed.

Lemma jobs_lookup_insert_ne jobs k' k v :
  key_eqb k' k = false ->
  jobs_lookup (jobs_insert jobs k' v) k = jobs_lookup jobs k.
Proof.
  intros Hk. induction jobs as [|[k0 v0] jobs IH]; simpl.
  - by rewrite Hk.
  - destruct (key_eqb k0 k') eqn:Hk0; simpl.
    + by rewrite (key_eqb_apart_l k0 k' k).
    + by rewrite IH.
Qed.

Lemma count_keyed_insert_eq jobs k' k v :
  key_eqb k' k = true ->
  length (List.filter (keyed k) jobs) <= 1 ->
  length (List.filter (keyed k) (jobs_insert jobs k' v)) = 1.
Proof.
  intros Hk. unfold keyed.
  induction jobs as [|[k0 v0] jobs IH]; cbn [jobs_insert List.filter fst].
  - by rewrite Hk.
  - destruct (key_eqb k0 k') eqn:Hk0; cbn [List.filter fst].
    + rewrite (key_eqb_trans k0 k' k) by done. cbn [length]. lia.
    + rewrite (key_eqb_apart k0 k' k) by done. exact IH.
Qed.

Lemma count_keyed_insert_ne jobs k' k v :
  key_eqb k' k = false ->
  length (List.filter (keyed k) (jobs_insert jobs k' v))
  = length (List.filter (keyed k) jobs).
Proof.
  intros Hk. unfold keyed.
  induction jobs as [|[k0 v0] jobs IH]; cbn [jobs_insert List.filter fst].
  - by rewrite Hk.
  - destruct (key_eqb k0 k') eqn:Hk0; cbn [List.filter fst].
    + by rewrite (key_eqb_apart_l k0 k' k).
    + destruct (key_eqb k0 k); cbn [length]; by rewrite IH.
Qed.

Lemma jobs_insert_length jobs k v :
  length (jobs_insert jobs k v) <= S (length jobs).
Proof.
  induction jobs as [|[k0 v0] jobs IH]; simpl; [lia|].
  destruct (key_eqb k0 k); simpl; lia.
Qed.

(** Filing a job: it must be a mapping with a name that can be hashed. *)
Lemma store_job_pullable jobs job :
  store_job jobs job
  = if pullable job then Ok (jobs_insert jobs (job_key job) job)
    else Raise (match job with PDict _ => TypeError | _ => AttributeError end).
Proof.
  unfold store_job, pullable, job_key.
  destruct job as [| | | | |d]; done.
Qed.

(** X6: last write wins, for every key: after the pull, the entry under a
    key holds the last job whose name equals that key (as dict keys are
    compared, so that [True] and [1] are one key). *)
Theorem last_write_wins (E : env) (w w' : world)
  (jobs : list (pyval * pyval)) (before after : list pyval)
  (job k : pyval) :
  consumer_jobs E = before ++ job :: after ->
  key_eqb (job_key job) k = true ->
  forallb (fun j => negb (key_eqb (job_key j) k)) after = true ->
  _get_scrape_jobs E w = (Ok jobs, w') ->
  jobs_lookup jobs k = Some job.
Proof.
  intros Hjobs Hjob Hafter Hrun.
  unfold _get_scrape_jobs, bind, ask, lift in Hrun.
  injection Hrun as Hrun _. rewrite Hjobs, for_each_app in Hrun.
  destruct (for_each store_job before []) as [acc|]; [|done].
  cbn [rbind for_each] in Hrun. rewrite store_job_pullable in Hrun.
  destruct (pullable job); [|done]. cbn [rbind] in Hrun.
  assert (Hkeep : forall acc0 out,
             for_each store_job after acc0 = Ok out ->
             jobs_lookup out k = jobs_lookup acc0 k).
  { clear Hrun Hjobs. induction after as [|j js IH]; intros acc0 out Hout.
    - by injection Hout as <-.
    - cbn [forallb] in Hafter. apply andb_true_iff in Hafter as [Hj Hjs].
      cbn [for_each] in Hout. rewrite store_job_pullable in Hout.
      destruct (pullable j); [|done]. cbn [rbind] in Hout.
      rewrite (IH Hjs _ _ Hout). apply jobs_lookup_insert_ne.
      by apply negb_true_iff. }
  rewrite (Hkeep _ _ Hrun). by apply jobs_lookup_insert_eq.
Qed.

(** X7: the pull gives a table: no two entries have equal keys, there are
    at most as many entries as jobs, and every entry holds a job of the
    relation filed under its own name. *)
Theorem pulled_jobs_form_a_table (E : env) (w w' : world)
  (jobs : list (pyval * pyval)) :
  _get_scrape_jobs E w = (Ok jobs, w') ->
  (forall k, length (List.filter (keyed k) jobs) <= 1)
  /\ length jobs <= length (consumer_jobs E)
  /\ Forall (fun entry =>
               key_eqb (fst entry) (job_key (snd entry)) = true
               /\ In (snd entry) (consumer_jobs E)) jobs.
Proof.
  intros Hrun. unfold _get_scrape_jobs, bind, ask, lift in Hrun.
  injection Hrun as Hrun _.
  assert (Hgen : forall pulled acc out,
             for_each store_job pulled acc = Ok out ->
             (forall k, length (List.filter (keyed k) acc) <= 1) ->
             Forall (fun entry =>
                       key_eqb (fst entry) (job_key (snd entry)) = true) acc ->
             (forall k, length (List.filter (keyed k) out) <= 1)
             /\ length out <= length acc + length pulled
             /\ Forall (fun entry =>
                          key_eqb (fst entry) (job_key (snd entry)) = true)
                  out
             /\ forall entry, In entry out ->
                              In entry acc \/ In (snd entry) pulled).
  { induction pulled as [|j js IH]; intros acc out Hout Hcount Hkeys.
    - injection Hout as <-. repeat split; [done|simpl; lia|done|by left].
    - cbn [for_each] in Hout. rewrite store_job_pullable in Hout.
      destruct (pullable j) eqn:Hj; [|done]. cbn [rbind] in Hout.
      assert (Hh : hashable (job_key j) = true).
      { unfold pullable in Hj. by destruct j. }
      destruct (IH _ _ Hout) as (Hc & Hl & Hk & Hin).
      + intros k. destruct (key_eqb (job_key j) k) eqn:Hjk.
        * by rewrite count_keyed_insert_eq.
        * by rewrite count_keyed_insert_ne.
      + clear -Hkeys Hh. induction acc as [|[k0 v0] acc IHacc]; simpl.
        * constructor; [|constructor]. simpl. by apply key_eqb_refl.
        * inversion Hkeys as [|? ? Hhead Htail]; subst.
          destruct (key_eqb k0 (job_key j)) eqn:Hk0; constructor; auto.
      + split; [done|]. split.
        { pose proof (jobs_insert_length acc (job_key j) j). simpl. lia. }
        split; [done|]. intros entry Hentry.
        destruct (Hin entry Hentry) as [Hins | Hlater]; [|right; by right].
        clear -Hins. induction acc as [|[k0 v0] acc IHacc]; simpl in Hins.
        * destruct Hins as [<- | []]. right. by left.
        * destruct (key_eqb k0 (job_key j)).
          -- destruct Hins as [<- | Hins]; [right; by left | left; by right].
          -- destruct Hins as [<- | Hins]; [left; by left|].
             destruct (IHacc Hins) as [? | ?]; [left; by right | by right]. }
  destruct (Hgen _ _ _ Hrun) as (Hc & Hl & Hk & Hin);
    [intros k; simpl; lia | constructor |].
  split; [done|]. split; [simpl in Hl; lia|].
  apply Forall_forall. intros entry Hentry.
  rewrite Forall_forall in Hk. split; [by apply Hk|].
  apply list_elem_of_In in Hentry.
  destruct (Hin entry Hentry) as [[] | Hpulled]. done.
Qed.

(** X8: the pull never changes the world; it returns a table exactly when
    every job is a mapping with a name that can be hashed, and otherwise
    raises at the first job that is not: [AttributeError] when it is not a
    mapping, [TypeError] when its name cannot be hashed. *)
Theorem pull_succeeds_iff_pullable (E : env) (w : world) :
  snd (_get_scrape_jobs E w) = w
  /\ (forallb pullable (consumer_jobs E) = true <->
      exists jobs, fst (_get_scrape_jobs E w) = Ok jobs)
  /\ (forall before job after,
        consumer_jobs E = before ++ job :: after ->
        forallb pullable before = true ->
        pullable job = false ->
        fst (_get_scrape_jobs E w)
        = Raise (match job with
                 | PDict _ => TypeError
                 | _ => AttributeError
                 end)).
Proof.
  unfold _get_scrape_jobs, bind, ask, lift. cbn [fst snd].
  assert (Hok : forall pulled acc,
             forallb pullable pulled = true ->
             exists out, for_each store_job pulled acc = Ok out).
  { induction pulled as [|j js IH]; intros acc Hall; [by eexists|].
    cbn [forallb] in Hall. apply andb_true_iff in Hall as [Hj Hjs].
    cbn [for_each]. rewrite store_job_pullable, Hj. cbn [rbind]. by apply IH. }
  assert (Hbad : forall before job after acc,
             forallb pullable before = true ->
             pullable job = false ->
             for_each store_job (before ++ job :: after) acc
             = Raise (match job with
                      | PDict _ => TypeError
                      | _ => AttributeError
                      end)).
  { intros before job after acc Hbefore Hjob. rewrite for_each_app.
    destruct (Hok before acc Hbefore) as [out ->].
    cbn [rbind for_each]. by rewrite store_job_pullable, Hjob. }
  split; [done|]. split; [|intros before job after -> ? ?; by apply Hbad].
  split; [apply Hok|]. intros [jobs Hjobs].
  destruct (forallb pullable (consumer_jobs E)) eqn:Hall; [done|].
  exfalso. revert Hjobs Hall. generalize (@nil (pyval * pyval)).
  induction (consumer_jobs E) as [|j js IH]; intros acc Hrun Hall; [done|].
  cbn [forallb] in Hall. cbn [for_each] in Hrun.
  rewrite store_job_pullable in Hrun.
  destruct (pullable j); [|done]. cbn [rbind andb] in Hrun, Hall.
  by eapply IH.
Qed.

End JobsTable.

(** ** More on the status probe *)

Section ProbeEdges.
Import Charm Probe Shape.

Lemma split_colon_free s : colon_free s = true -> split ":" s = [s].
Proof.
  induction s as [|c s IH]; [done|]. cbn [colon_free split].
  intros [Hc Hs]%andb_true_iff. apply negb_true_iff in Hc.
  rewrite Hc, IH by done. done.
Qed.

(** Splitting at the colons of [a ++ ":" ++ b] ends with the pieces of [b]. *)
Lemma split_after_colon a b :
  exists pre, pre <> [] /\ split ":" (a ++ ":" ++ b) = pre ++ split ":" b.
Proof.
  induction a as [|c a (pre & Hpre & IH)].
  - exists [EmptyString]. done.
  - change ((String c a ++ ":" ++ b)%string)
      with (String c (a ++ ":" ++ b)%string).
    cbn [split]. rewrite IH.
    destruct (Ascii.eqb c ":").
    + exists (EmptyString :: pre). done.
    + destruct pre as [|seg pre]; [done|].
      exists (String c seg :: pre). done.
Qed.

Lemma last_app_nonempty {A} (l1 l2 : list A) d :
  l2 <> [] -> List.last (l1 ++ l2) d = List.last l2 d.
Proof.
  intros Hne. induction l1 as [|x l1 IH]; [done|].
  cbn [app]. destruct (l1 ++ l2) eqn:Happ.
  - by destruct l1, l2.
  - rewrite <- IH. done.
Qed.

(** X11: the port the probe asks is the text after the last colon of the
    listen address: [port] for [host:port], whatever colons the host has, and
    the whole address when it has no colon. *)
Theorem port_is_after_last_colon (host port : string) :
  colon_free port = true ->
  port_of (CStr (host ++ ":" ++ port)) = Ok port
  /\ port_of (CStr port) = Ok port.
Proof.
  intros Hport. unfold port_of. split.
  - destruct (split_after_colon host port) as (pre & Hpre & ->).
    rewrite split_colon_free by done.
    rewrite map_app, last_app_nonempty by done. done.
  - by rewrite split_colon_free.
Qed.

Lemma count_non_self_nonneg json n :
  count_non_self json = Ok n -> (0 <= n)%Z.
Proof.
  unfold count_non_self. destruct json as [data|]; [|done]. cbn [rbind].
  destruct (Py.get data "data" (PDict [])) as [inner|]; [|done].
  cbn [rbind].
  destruct (Py.get inner "activeTargets" (PList [])) as [ats|]; [|done].
  cbn [rbind]. destruct (Py.iter ats) as [ts|]; [|done]. cbn [rbind].
  destruct (for_each keep_non_self ts []) as [kept|]; [|done]. cbn [rbind].
  intros [= <-]. lia.
Qed.

(** X9: answers with another status than 200 are retried at once: three
    such answers make three requests without any sleep, and the probe
    returns 0. *)
Theorem other_status_retried_without_delay (config : gmap string cfgval)
  (E : env) (w : world) :
  str_option config "listen-address" = true ->
  (forall i, i < 3 ->
             other_status (requests_get E (http_requests w + i)) = true) ->
  exists port,
    port_of (config_get config "listen-address" (CStr "0.0.0.0:9090"))
    = Ok port
    /\ _get_active_targets_from_api config E w
       = (Ok 0%Z,
          after_requests w 3
            [EvHttpGet (url_of port) 5; EvHttpGet (url_of port) 5;
             EvHttpGet (url_of port) 5]).
Proof.
  intros Hstr Hother.
  destruct (listen_address_has_port config Hstr) as [port Hport].
  exists port. split; [done|].
  rewrite probe_unfold, Hport. cbv zeta.
  change (range 3) with [0%Z; 1%Z; 2%Z].
  assert (Hstep : forall attempt rest w1 i,
             i < 3 -> http_requests w1 = http_requests w + i ->
             retry_loop 3 (url_of port) (attempt :: rest) E w1
             = retry_loop 3 (url_of port) rest E
                 (after_requests w1 1 [EvHttpGet (url_of port) 5])).
  { intros attempt rest w1 i Hi Hw1. specialize (Hother i Hi).
    rewrite <- Hw1 in Hother.
    destruct (requests_get E (http_requests w1)) as [e|code json] eqn:Hget;
      [done|].
    apply (retry_loop_other_status _ _ _ _ _ _ code json Hget).
    by apply negb_true_iff. }
  rewrite (Hstep _ _ w 0) by (simpl; lia).
  rewrite (Hstep _ _ _ 1) by (simpl; lia).
  rewrite (Hstep _ _ _ 2) by (simpl; lia).
  by rewrite !after_requests_after.
Qed.

(** X10: an answer that breaks (an exception other than a connection error
    or a timeout, from the request or from reading a 200 response) ends the
    probe at once: one request, no retry, no sleep, and the probe returns 0
    without raising. *)
Theorem breaking_answer_ends_probe (config : gmap string cfgval)
  (E : env) (w : world) :
  str_option config "listen-address" = true ->
  breaks (requests_get E (http_requests w)) = true ->
  exists port,
    port_of (config_get config "listen-address" (CStr "0.0.0.0:9090"))
    = Ok port
    /\ _get_active_targets_from_api config E w
       = (Ok 0%Z, after_requests w 1 [EvHttpGet (url_of port) 5]).
Proof.
  intros Hstr Hbreaks.
  destruct (listen_address_has_port config Hstr) as [port Hport].
  exists port. split; [done|].
  rewrite probe_unfold, Hport. cbv zeta.
  change (range 3) with [0%Z; 1%Z; 2%Z].
  rewrite retry_loop_step. cbv zeta.
  destruct (requests_get E (http_requests w)) as [e|code json];
    cbn [breaks] in Hbreaks.
  - apply negb_true_iff in Hbreaks. by rewrite Hbreaks.
  - apply andb_true_iff in Hbreaks as [Hcode Hjson]. rewrite Hcode.
    destruct (count_non_self json) as [n|e]; [done|].
    apply negb_true_iff in Hjson. by rewrite Hjson.
Qed.

End ProbeEdges.

Section ProbeLatency.
Import Charm Probe Shape.

Ltac probe_attempt E :=
  rewrite retry_loop_step; cbv zeta;
  match goal with
  | |- context [requests_get E ?k] =>
      let e := fresh "e" in
      let code := fresh "code" in
      let json := fresh "json" in
      let n := fresh "n" in
      let e' := fresh "e" in
      let Hcount := fresh "Hcount" in
      destruct (requests_get E k) as [e|code json];
      [ destruct (retryable e)
      | destruct (code =? 200)%Z;
        [ destruct (count_non_self json) as [n|e'] eqn:Hcount;
          [ apply count_non_self_nonneg in Hcount
          | destruct (retryable e') ]
        | destruct (count_non_self json) ] ]
  end.

Ltac probe_done :=
  solve [ rewrite ?after_requests_after;
          eexists _, _, _; split; [reflexivity|];
          repeat split;
          first [ assumption | exact I | vm_compute; done | vm_compute; lia ] ].

(** The three attempts, whatever the answers: what the loop returns is not
    negative, it sleeps fewer times than it asks, two seconds each time, and
    never after its last request. *)
Lemma three_attempts_latency url E w :
  exists r n evs,
    retry_loop 3 url [0%Z; 1%Z; 2%Z] E w = (r, after_requests w n evs)
    /\ match r with Ok (Some c) => (0 <= c)%Z | _ => True end
    /\ length (List.filter is_request evs) = n
    /\ length (List.filter is_sleep evs) <= 2
    /\ length (List.filter is_sleep evs) < n
    /\ forallb sleeps_two evs = true
    /\ is_sleep (List.last evs (EvHttpGet url 5)) = false.
Proof.
  probe_attempt E; try probe_done;
    probe_attempt E; try probe_done;
    probe_attempt E; try probe_done.
Qed.

(** X12: a probe blocks for at most two sleeps of two seconds: whatever the
    endpoint answers, it sleeps at most twice, no more often than it asks,
    only ever for 2, never after its last request; and the count it returns is
    not negative. *)
Theorem probe_sleeps_bounded (config : gmap string cfgval) (E : env)
  (w : world) :
  exists count n evs,
    _get_active_targets_from_api config E w
    = (Ok count, after_requests w n evs)
    /\ (0 <= count)%Z
    /\ length (List.filter is_sleep evs) <= 2
    /\ length (List.filter is_sleep evs) <= n
    /\ forallb sleeps_two evs = true
    /\ match List.last (map Some evs) None with
       | Some ev => is_sleep ev = false
       | None => n = 0
       end.
Proof.
  rewrite probe_unfold.
  destruct (port_of _) as [port|e].
  - change (range 3) with [0%Z; 1%Z; 2%Z]. cbv zeta.
    destruct (three_attempts_latency (url_of port) E w)
      as (r & n & evs & -> & Hr & Hreq & Hs & Hlt & Htwo & Hlast).
    cbn [fst snd]. eexists _, n, evs. split; [reflexivity|].
    split; [by destruct r as [[c|]|]|]. split; [done|].
    split; [by apply Nat.lt_le_incl|].
    split; [done|].
    destruct evs as [|ev evs]; [simpl in Hreq, Hlt; lia|].
    destruct (last_of_some (ev :: evs)) as [x Hx]; [done|]. rewrite Hx.
    assert (Hsame : List.last (ev :: evs) (EvHttpGet (url_of port) 5) = x).
    { clear -Hx. revert ev Hx. induction evs as [|y evs IH]; intros ev Hx.
      - by injection Hx as <-.
      - apply (IH y). exact Hx. }
    by rewrite <- Hsame.
  - exists 0%Z, 0, []. rewrite after_requests_0. cbn.
    repeat split; first [done | lia].
Qed.

End ProbeLatency.

(** ** More on the status and on reconfiguration *)

Section StatusTable.
Import Charm Probe Shape.

(** X13: what [_update_status] does, case by case. Without the binary it
    sets "Prometheus not installed" and asks nothing; with the binary and an
    inactive unit it asks systemd once, sets "Prometheus service not running"
    and sends no request; with an active unit it probes once and sets an active
    status whose text is "no targets" for the count 0 and gives the count
    otherwise. It never raises. *)
Theorem update_status_table (config : gmap string cfgval) (E : env)
  (w : world) :
  (bin_exists w = false ->
   _update_status config E w
   = (Ok tt, with_status w (BlockedStatus "Prometheus not installed")))
  /\ (bin_exists w = true -> service_active w = false ->
      _update_status config E w
      = (Ok tt,
         with_status (with_trace w [EvSystemctl "is-active"])
           (BlockedStatus "Prometheus service not running")))
  /\ (bin_exists w = true -> service_active w = true ->
      exists count n evs,
        _get_active_targets_from_api config E
          (with_trace w [EvSystemctl "is-active"])
        = (Ok count,
           after_requests (with_trace w [EvSystemctl "is-active"]) n evs)
        /\ _update_status config E w
           = (Ok tt,
              with_status
                (after_requests (with_trace w [EvSystemctl "is-active"]) n evs)
                (ActiveStatus (ready_message count)))).
Proof.
  destruct w as [st inst act cf hr tr].
  unfold _update_status, PrometheusInstaller.is_installed,
    PrometheusInstaller.is_service_running.
  unfold bind, get_world, ret, emit, set_status, with_status, with_trace.
  cbn -[_get_active_targets_from_api String.append str_of_Z].
  split; [by intros ->|]. split; [by intros -> ->|]. intros -> ->.
  cbn -[_get_active_targets_from_api String.append str_of_Z].
  match goal with |- context [_get_active_targets_from_api config E ?w1] =>
    destruct (probe_frame config E w1) as (c & n & evs & Hprobe & _)
  end.
  exists c, n, evs. split; [exact Hprobe|]. rewrite Hprobe.
  unfold ready_message. by destruct (c =? 0)%Z.
Qed.

Lemma pull_ok_iff_pullable pulled acc :
  (exists out, for_each store_job pulled acc = Ok out)
  <-> forallb pullable pulled = true.
Proof.
  revert acc. induction pulled as [|j js IH]; intros acc.
  - split; [done | by eexists].
  - cbn [for_each forallb]. rewrite store_job_pullable.
    destruct (pullable j); cbn [rbind andb]; [apply IH|].
    split; [by intros [? ?] | done].
Qed.

(** The steps of the two reconfiguration handlers, written out. *)
Lemma reconfigure_unfold config E w :
  _on_config_changed config E w
  = match for_each store_job (consumer_jobs E) [] with
    | Raise e => (Raise e, w)
    | Ok jobs =>
        if open_for_write E then
          let content :=
            yaml_dump E (PrometheusConfig.config_document config jobs) in
          let w1 :=
            with_trace (with_file w content)
              [EvWriteFile PrometheusConfig.PROMETHEUS_CONFIG_FILE content;
               EvSystemctl "is-active"] in
          if service_active w then
            match systemctl_restart E with
            | CtlOk =>
                _update_status config E
                  (with_active (with_trace w1 [EvSystemctl "restart"]) true)
            | CtlFailed active_after =>
                (Raise CalledProcessError,
                 with_active (with_trace w1 [EvSystemctl "restart"])
                   active_after)
            end
          else _update_status config E w1
        else (Raise OSError, w)
    end.
Proof.
  destruct w as [st inst act cf hr tr].
  remember (_update_status config) as update eqn:Hupdate.
  unfold _on_config_changed. rewrite <- Hupdate.
  unfold _get_scrape_jobs, PrometheusConfig.generate_config,
    PrometheusInstaller.is_service_running,
    PrometheusInstaller.restart_service.
  unfold bind, ask, lift, emit, set_config_file, get_world, ret, raise,
    set_active, with_trace, with_file, with_active.
  cbn -[PrometheusConfig.config_document
        PrometheusConfig.PROMETHEUS_CONFIG_FILE].
  destruct (for_each store_job (consumer_jobs E) []) as [jobs|e]; [|done].
  destruct (open_for_write E);
    cbn -[PrometheusConfig.config_document
          PrometheusConfig.PROMETHEUS_CONFIG_FILE]; [|done].
  destruct act;
    cbn -[PrometheusConfig.config_document
          PrometheusConfig.PROMETHEUS_CONFIG_FILE].
  - destruct (systemctl_restart E);
      cbn -[PrometheusConfig.config_document
            PrometheusConfig.PROMETHEUS_CONFIG_FILE];
      by rewrite <- !app_assoc.
  - by rewrite <- !app_assoc.
Qed.

(** X14: how a reconfiguration handler can end. It runs to its end exactly
    when every job can be filed, the file can be opened and, for an active
    unit, the restart succeeds. When a job cannot be filed or the file cannot
    be opened, it raises and leaves the world as it was. When the restart fails
    it raises [CalledProcessError] after the new configuration is on disk, and
    the unit status is left as it was. *)
Theorem reconfigure_failure_modes
  (handler : gmap string cfgval -> M unit) (config : gmap string cfgval)
  (E : env) (w : world) :
  handler = _on_config_changed \/ handler = _on_targets_changed ->
  let out := handler config E w in
  (fst out = Ok tt <->
   forallb pullable (consumer_jobs E) = true
   /\ open_for_write E = true
   /\ (service_active w = true -> systemctl_restart E = CtlOk))
  /\ (forallb pullable (consumer_jobs E) = false \/ open_for_write E = false ->
      (exists e, fst out = Raise e) /\ snd out = w)
  /\ (forall active_after jobs,
        for_each store_job (consumer_jobs E) [] = Ok jobs ->
        open_for_write E = true ->
        service_active w = true ->
        systemctl_restart E = CtlFailed active_after ->
        fst out = Raise CalledProcessError
        /\ config_file (snd out)
           = Some (yaml_dump E (PrometheusConfig.config_document config jobs))
        /\ service_active (snd out) = active_after
        /\ unit_status (snd out) = unit_status w).
Proof.
  intros Hhandler.
  assert (handler = _on_config_changed) as ->.
  { destruct Hhandler as [-> | ->]; [done | apply on_targets_changed_same]. }
  cbv zeta. rewrite reconfigure_unfold.
  pose proof (pull_ok_iff_pullable (consumer_jobs E) []) as Hpull.
  destruct (for_each store_job (consumer_jobs E) []) as [jobs|e].
  2:{ assert (Hnot : forallb pullable (consumer_jobs E) = false).
      { destruct (forallb pullable (consumer_jobs E)); [|done].
        destruct Hpull as [_ [? ?]]; done. }
      rewrite Hnot. cbn [fst snd]. split; [split; [done | by intros [? _]]|].
      split; [by eauto | done]. }
  assert (Hall : forallb pullable (consumer_jobs E) = true)
    by (apply Hpull; eauto).
  rewrite Hall. destruct (open_for_write E).
  2:{ cbn [fst snd]. split; [split; [done | by intros (_ & ? & _)]|].
      split; [by eauto | done]. }
  cbv zeta. destruct (service_active w) eqn:Hact.
  - destruct (systemctl_restart E) as [|a].
    + match goal with |- context [_update_status config E ?w1] =>
        destruct (update_status_frame config E w1) as (st & n & evs & -> & _)
      end.
      cbn [fst snd]. split; [done|]. split; [by intros [? | ?]|].
      by intros.
    + cbn [fst snd]. split.
      { split; [done|]. intros (_ & _ & Hok). by specialize (Hok eq_refl). }
      split; [by intros [? | ?]|].
      intros a' jobs' [= <-] _ _ [= <-]. done.
  - match goal with |- context [_update_status config E ?w1] =>
      destruct (update_status_frame config E w1) as (st & n & evs & -> & _)
    end.
    cbn [fst snd]. split; [done|]. split; [by intros [? | ?]|].
    by intros.
Qed.


End StatusTable.

(** ** Install, start, stop *)

Section LifecycleFacts.
Import Charm Lifecycle Shape.

(** [_on_start], written out. *)
Lemma on_start_unfold H config E w :
  _on_start H config E w
  = if systemctl_enable H then
      match systemctl_start H with
      | CtlOk =>
          _update_status config E
            (with_active
               (with_trace w [EvSystemctl "enable"; EvSystemctl "start"]) true)
      | CtlFailed active_after =>
          (Ok tt,
           with_status
             (with_active
                (with_trace w [EvSystemctl "enable"; EvSystemctl "start"])
                active_after)
             (BlockedStatus
                ("Failed to start: " ++ str_exn H CalledProcessError)))
      end
    else
      (Ok tt,
       with_status (with_trace w [EvSystemctl "enable"])
         (BlockedStatus ("Failed to start: " ++ str_exn H CalledProcessError))).
Proof.
  destruct w as [st inst act cf hr tr].
  remember (_update_status config) as update eqn:Hupdate.
  unfold _on_start, start_service. rewrite <- Hupdate.
  unfold try_except, bind, emit, set_active, set_status, raise, ret,
    with_status, with_active, with_trace.
  cbn -[String.append].
  destruct (systemctl_enable H); cbn -[String.append]; [|done].
  destruct (systemctl_start H); cbn -[String.append];
    rewrite <- ?app_assoc; cbn -[String.append]; [|done].
  subst update.
  match goal with |- context [_update_status config E ?w1] =>
    destruct (update_status_frame config E w1) as (st' & n & evs & -> & _)
  end.
  done.
Qed.

(** X16: the start handler never raises. When enabling the unit fails,
    [systemctl start] is not issued; when enabling or starting fails the unit
    is blocked with "Failed to start: " and the text of the exception; when
    both succeed the unit is active and the status is recomputed, which for an
    installed binary gives an active status. *)
Theorem on_start_outcomes (H : host) (config : gmap string cfgval) (E : env)
  (w : world) :
  let out := _on_start H config E w in
  fst out = Ok tt
  /\ (systemctl_enable H = false ->
      snd out
      = with_status (with_trace w [EvSystemctl "enable"])
          (BlockedStatus ("Failed to start: " ++ str_exn H CalledProcessError)))
  /\ (forall active_after,
        systemctl_enable H = true ->
        systemctl_start H = CtlFailed active_after ->
        snd out
        = with_status
            (with_active
               (with_trace w [EvSystemctl "enable"; EvSystemctl "start"])
               active_after)
            (BlockedStatus
               ("Failed to start: " ++ str_exn H CalledProcessError)))
  /\ (systemctl_enable H = true ->
      systemctl_start H = CtlOk ->
      service_active (snd out) = true
      /\ (bin_exists w = true ->
          exists message, unit_status (snd out) = ActiveStatus message)).
Proof.
  cbv zeta. rewrite on_start_unfold.
  destruct (systemctl_enable H).
  2:{ cbn [fst snd]. repeat split; done. }
  destruct (systemctl_start H) as [|a].
  2:{ cbn [fst snd]. split; [done|]. split; [done|].
      split; [by intros a' _ [= <-] | done]. }
  set (w1 := with_active _ true).
  destruct (update_status_frame config E w1) as (st & n & evs & Hrun & _).
  rewrite Hrun. cbn [fst snd]. split; [done|]. split; [done|].
  split; [done|]. intros _ _. split; [done|]. intros Hbin.
  destruct w as [st0 inst act cf hr tr]. cbn in Hbin. subst inst.
  unfold _update_status, PrometheusInstaller.is_installed,
    PrometheusInstaller.is_service_running in Hrun.
  unfold bind, get_world, ret, emit, set_status in Hrun.
  cbn -[_get_active_targets_from_api String.append str_of_Z] in Hrun.
  match type of Hrun with
  | context [_get_active_targets_from_api config E ?wx] =>
      destruct (probe_frame config E wx) as (c & n' & evs' & Hp & _)
  end.
  rewrite Hp in Hrun.
  destruct (c =? 0)%Z; injection Hrun as <- _ _; eauto.
Qed.

(** X17: the stop handler never raises, issues one [systemctl stop] and
    leaves the unit status as it was, a failed stop being swallowed; after a
    stop that succeeded, the next status update of an installed unit reports
    "Prometheus service not running" without sending a request. *)
Theorem on_stop_then_status (H : host) (config : gmap string cfgval)
  (E : env) (w : world) :
  _on_stop H E w
  = (Ok tt,
     with_active (with_trace w [EvSystemctl "stop"])
       (match systemctl_stop H with
        | CtlOk => false
        | CtlFailed active_after => active_after
        end))
  /\ (systemctl_stop H = CtlOk ->
      bin_exists w = true ->
      bind (_on_stop H) (fun _ => _on_update_status config) E w
      = (Ok tt,
         with_status
           (with_active
              (with_trace w [EvSystemctl "stop"; EvSystemctl "is-active"])
              false)
           (BlockedStatus "Prometheus service not running"))).
Proof.
  destruct w as [st inst act cf hr tr].
  assert (Hstop : _on_stop H E
                    {| unit_status := st; bin_exists := inst;
                       service_active := act; config_file := cf;
                       http_requests := hr; trace := tr |}
                  = (Ok tt,
                     with_active
                       (with_trace
                          {| unit_status := st; bin_exists := inst;
                             service_active := act; config_file := cf;
                             http_requests := hr; trace := tr |}
                          [EvSystemctl "stop"])
                       (match systemctl_stop H with
                        | CtlOk => false
                        | CtlFailed active_after => active_after
                        end))).
  { unfold _on_stop, stop_service, try_except, bind, emit, set_active, raise,
      ret, with_active, with_trace.
    cbn. by destruct (systemctl_stop H). }
  split; [exact Hstop|]. intros Hok Hbin. cbn in Hbin. subst inst.
  unfold bind at 1. rewrite Hstop, Hok.
  unfold _on_update_status, _update_status, PrometheusInstaller.is_installed,
    PrometheusInstaller.is_service_running.
  unfold bind, get_world, ret, emit, set_status, with_status, with_active,
    with_trace.
  cbn. by rewrite <- app_assoc.
Qed.

End LifecycleFacts.

Section InstallFacts.
Import Charm Lifecycle Shape.

(** X18: how the install handler ends. It succeeds exactly when every step
    does (user and directories, a supported architecture, the release, the
    unit file, the daemon reload, the configuration file); then the unit says
    "Prometheus installed", the binary is there and the configuration on disk
    is the document of the empty job collection, whose only scrape job is the
    self-monitoring one. Otherwise it re-raises the exception of the failing
    step with the unit blocked on "Installation failed: " and its text. On an
    unsupported architecture it raises [RuntimeError] with nothing fetched or
    written. It never starts or stops the unit. *)
Theorem on_install_outcomes (H : host) (config : gmap string cfgval)
  (E : env) (w : world) :
  let out := _on_install H config E w in
  (fst out = Ok tt <->
   provision_user_and_directories H = Ok tt
   /\ (exists arch,
         _get_architecture (uname_machine H) = Ok arch
         /\ fetch_release H
              (release_url
                 (cfg_str (config_get config "prometheus-version"
                             (CStr "2.53.0"))) arch)
            = Fetched)
   /\ write_unit_file H = true
   /\ systemctl_daemon_reload H = true
   /\ open_for_write E = true)
  /\ (fst out = Ok tt ->
      unit_status (snd out) = MaintenanceStatus "Prometheus installed"
      /\ bin_exists (snd out) = true
      /\ config_file (snd out)
         = Some (yaml_dump E (PrometheusConfig.config_document config []))
      /\ Py.getitem (PrometheusConfig.config_document config [])
           "scrape_configs"
         = Ok (PList [PrometheusConfig._build_self_monitoring_job]))
  /\ (forall e, fst out = Raise e ->
                unit_status (snd out)
                = BlockedStatus ("Installation failed: " ++ str_exn H e))
  /\ (provision_user_and_directories H = Ok tt ->
      _get_architecture (uname_machine H) = Raise RuntimeError ->
      out
      = (Raise RuntimeError,
         with_status w
           (BlockedStatus
              ("Installation failed: " ++ str_exn H RuntimeError))))
  /\ service_active (snd out) = service_active w.
Proof.
  destruct w as [st inst act cf hr tr].
  unfold _on_install, setup_user_and_directories, install_prometheus,
    create_systemd_service, PrometheusConfig.generate_config.
  unfold try_except, bind, lift, ask, emit, set_status, set_bin_exists,
    set_config_file, raise, ret, with_status.
  cbn -[String.append PrometheusConfig.config_document service_content
        release_url].
  destruct (provision_user_and_directories H) as [[]|e1];
    cbn -[String.append PrometheusConfig.config_document service_content
          release_url].
  2:{ split; [split; [done | by intros ([=] & _)]|].
      split; [done|]. split; [by intros e [= <-]|]. done. }
  destruct (_get_architecture (uname_machine H)) as [arch|e2];
    cbn -[String.append PrometheusConfig.config_document service_content
          release_url].
  2:{ split; [split; [done | by intros (_ & (? & [=] & _) & _)]|].
      split; [done|]. split; [by intros e [= <-]|].
      split; [by intros _ [= <-] | done]. }
  destruct (fetch_release H _) as [|e3 copied] eqn:Hfetch;
    cbn -[String.append PrometheusConfig.config_document service_content
          release_url].
  2:{ destruct copied;
        cbn -[String.append PrometheusConfig.config_document service_content
              release_url].
      all: split; [split; [done|];
                   intros (_ & (a & [= <-] & Hf) & _); congruence|].
      all: split; [done|]. all: split; [by intros e [= <-]|]. all: done. }
  destruct (write_unit_file H);
    cbn -[String.append PrometheusConfig.config_document service_content
          release_url].
  2:{ split; [split; [done | by intros (_ & _ & [=] & _)]|].
      split; [done|]. split; [by intros e [= <-]|]. done. }
  destruct (systemctl_daemon_reload H);
    cbn -[String.append PrometheusConfig.config_document service_content
          release_url].
  2:{ split; [split; [done | by intros (_ & _ & _ & [=] & _)]|].
      split; [done|]. split; [by intros e [= <-]|]. done. }
  destruct (open_for_write E);
    cbn -[String.append PrometheusConfig.config_document service_content
          release_url].
  2:{ split; [split; [done | by intros (_ & _ & _ & _ & [=])]|].
      split; [done|]. split; [by intros e [= <-]|]. done. }
  split; [split; [|done]; intros _; repeat split; eauto|].
  split; [done|]. split; [done|]. done.
Qed.

(** X19: the command line of the unit file. The seven fixed options come
    first, in their order, with the configured listen address, retention time
    and log level; [--web.enable-admin-api] is on the command line exactly when
    the option is set; and each of the three optional arguments adds one
    argument when its condition holds. *)
Theorem service_args_options (config : gmap string cfgval) :
  let args := PrometheusInstaller.service_args config in
  let listen_address :=
    config_get config "listen-address" (CStr "0.0.0.0:9090") in
  let retention_time := config_get config "retention-time" (CStr "15d") in
  let retention_size := config_get config "retention-size" (CStr "0") in
  let external_url := config_get config "external-url" (CStr "") in
  let log_level := config_get config "log-level" (CStr "info") in
  let enable_admin_api :=
    config_get config "enable-admin-api" (CBool false) in
  firstn 7 args
  = [ "--config.file=/etc/prometheus/prometheus.yml";
      "--storage.tsdb.path=/var/lib/prometheus";
      "--web.console.templates=/etc/prometheus/consoles";
      "--web.console.libraries=/etc/prometheus/console_libraries";
      "--web.listen-address=" ++ cfg_str listen_address;
      "--storage.tsdb.retention.time=" ++ cfg_str retention_time;
      "--log.level=" ++ cfg_str log_level ]%string
  /\ (In "--web.enable-admin-api" args <->
      PrometheusInstaller.cfg_truthy enable_admin_api = true)
  /\ length args
     = 7 + (if Py.ne_str (cfg_to_py retention_size) "0" then 1 else 0)
       + (if PrometheusInstaller.cfg_truthy external_url then 1 else 0)
       + (if PrometheusInstaller.cfg_truthy enable_admin_api then 1 else 0).
Proof.
  cbv zeta. unfold PrometheusInstaller.service_args.
  set (la := cfg_str (config_get config "listen-address" _)).
  set (rt := cfg_str (config_get config "retention-time" _)).
  set (ll := cfg_str (config_get config "log-level" _)).
  set (rs := config_get config "retention-size" _).
  set (eu := config_get config "external-url" _).
  set (ad := config_get config "enable-admin-api" _).
  destruct (Py.ne_str (cfg_to_py rs) "0");
    destruct (PrometheusInstaller.cfg_truthy eu);
    destruct (PrometheusInstaller.cfg_truthy ad);
    cbn; (split; [reflexivity|]); (split; [|reflexivity]);
    (split; [|intros; tauto || discriminate]);
    intros Hin; repeat destruct Hin as [Hin | Hin];
    first [done | discriminate Hin | tauto].
Qed.

(** X20: which hooks can fail. A start, stop or update-status hook always
    ends well, whatever systemd and the endpoint do; with a library missing
    every hook ends well, having only set the blocked status that names the
    missing library (the scrape library first). *)
Theorem hooks_that_never_fail (L : libraries) (H : host)
  (config : gmap string cfgval) (h : hook) (E : env) (w : world) :
  (h = Start \/ h = Stop \/ h = UpdateStatus ->
   fst (run_hook L H config h E w) = Ok tt)
  /\ (HAS_PROMETHEUS_SCRAPE L = false ->
      run_hook L H config h E w
      = (Ok tt,
         with_status w (BlockedStatus "Missing prometheus_scrape library")))
  /\ (HAS_PROMETHEUS_SCRAPE L = true -> HAS_HELPERS L = false ->
      run_hook L H config h E w
      = (Ok tt, with_status w (BlockedStatus "Missing helper modules"))).
Proof.
  unfold run_hook, init, bind, set_status, ret, with_status.
  split; [|split; [by intros -> | by intros -> ->]].
  intros Hh.
  destruct (HAS_PROMETHEUS_SCRAPE L); cbn [negb]; [|done].
  destruct (HAS_HELPERS L); cbn [negb]; [|done].
  destruct Hh as [-> | [-> | ->]]; cbn [observer].
  - rewrite on_start_unfold.
    destruct (systemctl_enable H); [|done].
    destruct (systemctl_start H); [|done].
    match goal with |- context [_update_status config E ?w1] =>
      destruct (update_status_frame config E w1) as (st & n & evs & -> & _)
    end.
    done.
  - unfold _on_stop, stop_service, try_except, bind, emit, set_active, raise,
      ret.
    cbn. by destruct (systemctl_stop H).
  - unfold _on_update_status.
    destruct (update_status_frame config E w) as (st & n & evs & -> & _).
    done.
Qed.

End InstallFacts.

(** ** The further statements at concrete inputs *)

Section MoreWitnesses.
Import PrometheusConfig PrometheusInstaller Charm Lifecycle.
Import Probe Descriptor Shape Examples MoreExamples.

(** X1 at a job with relabel rules and no metrics path. *)
Lemma built_job_shape_witness :
  exists cfg,
    _build_job_config (PStr "app-b") (PDict app_b_fields) = Ok (PDict cfg)
    /\ exists static_configs,
        cfg = [("job_name", PStr "app-b");
               ("metrics_path", PStr "/metrics");
               ("static_configs", PList static_configs);
               ("relabel_configs", PList [])].
Proof.
  eexists. split; [reflexivity|].
  exact (built_job_shape (PStr "app-b") app_b_fields _ eq_refl).
Defined.

(** X2 at a job whose targets are the string "ab": the rendered targets are
    its two characters. *)
Lemma built_groups_well_formed_witness :
  _build_job_config (PStr "t") (PDict app_text_fields)
  = Ok (PDict [("job_name", PStr "t"); ("metrics_path", PStr "/metrics");
               ("static_configs",
                PList [PDict [("targets", PList [PStr "a"; PStr "b"]);
                              ("labels", PDict [])]])])
  /\ exists static_configs,
      Py.dict_get [("job_name", PStr "t"); ("metrics_path", PStr "/metrics");
                   ("static_configs",
                    PList [PDict [("targets", PList [PStr "a"; PStr "b"]);
                                  ("labels", PDict [])]])]
        "static_configs" = Some (PList static_configs)
      /\ static_configs <> []
      /\ forallb wf_rendered static_configs = true.
Proof.
  split; [reflexivity|].
  exact (built_groups_well_formed (PStr "t") (PDict app_text_fields) _
           eq_refl).
Defined.

(** X4 at a relation job filed under "prometheus". *)
Lemma prometheus_name_not_reserved_witness :
  2 <= length (List.filter (named "prometheus")
                 (_build_scrape_configs [(PStr "prometheus", app_a)])).
Proof.
  apply (prometheus_name_not_reserved [(PStr "prometheus", app_a)] app_a).
  - left. reflexivity.
  - reflexivity.
  - intros Hnil. vm_compute in Hnil. discriminate Hnil.
Defined.

(** X5 at a job with a good group and a group that lists a number. *)
Lemma bad_target_drops_job_witness :
  (exists e, _build_job_config (PStr "m") (PDict app_mixed_fields) = Raise e)
  /\ contribution (PStr "m", PDict app_mixed_fields) = [].
Proof.
  apply (bad_target_drops_job (PStr "m") app_mixed_fields
           [("targets", PList [PStr "h:1"; PInt 9100])]
           [group_a; PDict [("targets", PList [PStr "h:1"; PInt 9100])]]
           [PStr "h:1"; PInt 9100] (PInt 9100)).
  - reflexivity.
  - right. left. reflexivity.
  - reflexivity.
  - right. left. reflexivity.
  - reflexivity.
Defined.

(** X6 at a job named [True] followed by a job named [1]: the entry under
    [True] holds the second. *)
Lemma last_write_wins_witness :
  exists jobs,
    _get_scrape_jobs env_numbers world0 = (Ok jobs, world0)
    /\ jobs_lookup jobs (PBool true) = Some job_one.
Proof.
  eexists. split; [reflexivity|].
  exact (last_write_wins env_numbers world0 world0 _ [job_true] [app_a]
           job_one (PBool true) eq_refl eq_refl eq_refl eq_refl).
Defined.

(** X7 at the same pull: two entries for three jobs. *)
Lemma pulled_jobs_form_a_table_witness :
  exists jobs,
    _get_scrape_jobs env_numbers world0 = (Ok jobs, world0)
    /\ length jobs = 2
    /\ (forall k, length (List.filter (keyed k) jobs) <= 1)
    /\ length jobs <= length (consumer_jobs env_numbers).
Proof.
  eexists. split; [reflexivity|]. split; [reflexivity|].
  destruct (pulled_jobs_form_a_table env_numbers world0 world0 _ eq_refl)
    as (Hkeys & Hlen & _).
  split; [exact Hkeys | exact Hlen].
Defined.

(** X8 at a pull whose second job has a list for a name. *)
Lemma pull_succeeds_iff_pullable_witness :
  forallb pullable [app_a] = true
  /\ pullable job_listed = false
  /\ fst (_get_scrape_jobs env_unhashable world0) = Raise TypeError.
Proof.
  split; [reflexivity|]. split; [reflexivity|].
  exact (proj2 (proj2 (pull_succeeds_iff_pullable env_unhashable world0))
           [app_a] job_listed [app_b] eq_refl eq_refl eq_refl).
Defined.

(** X9 at an endpoint that answers 503. *)
Lemma other_status_retried_without_delay_witness :
  exists port,
    port_of (config_get ∅ "listen-address" (CStr "0.0.0.0:9090")) = Ok port
    /\ _get_active_targets_from_api ∅ env_503 world0
       = (Ok 0%Z,
          after_requests world0 3
            [EvHttpGet (url_of port) 5; EvHttpGet (url_of port) 5;
             EvHttpGet (url_of port) 5]).
Proof.
  exact (other_status_retried_without_delay ∅ env_503 world0 eq_refl
           (fun i _ => eq_refl)).
Defined.

(** X10 at an endpoint that answers 200 with a body that is not JSON. *)
Lemma breaking_answer_ends_probe_witness :
  exists port,
    port_of (config_get ∅ "listen-address" (CStr "0.0.0.0:9090")) = Ok port
    /\ _get_active_targets_from_api ∅ env_garbled world0
       = (Ok 0%Z, after_requests world0 1 [EvHttpGet (url_of port) 5]).
Proof.
  exact (breaking_answer_ends_probe ∅ env_garbled world0 eq_refl eq_refl).
Defined.

(** X11 at an IPv6 listen address. *)
Lemma port_is_after_last_colon_witness :
  port_of (CStr "[::1]:9100") = Ok "9100"
  /\ port_of (CStr "9100") = Ok "9100".
Proof.
  exact (port_is_after_last_colon "[::1]" "9100" eq_refl).
Defined.

(** X13 at an installed unit that is not running. *)
Lemma update_status_table_witness :
  _update_status ∅ env_down world_stopped
  = (Ok tt,
     with_status (with_trace world_stopped [EvSystemctl "is-active"])
       (BlockedStatus "Prometheus service not running")).
Proof.
  exact (proj1 (proj2 (update_status_table ∅ env_down world_stopped))
           eq_refl eq_refl).
Defined.

(** X14 at an active unit whose restart fails: the handler raises with the
    new configuration on disk and the old status. *)
Lemma reconfigure_failure_modes_witness :
  fst (_on_targets_changed ∅ env_restart_fails world_written)
  = Raise CalledProcessError
  /\ config_file (snd (_on_targets_changed ∅ env_restart_fails world_written))
     = Some "2 scrape jobs"
  /\ service_active
       (snd (_on_targets_changed ∅ env_restart_fails world_written))
     = false
  /\ unit_status (snd (_on_targets_changed ∅ env_restart_fails world_written))
     = unit_status world_written.
Proof.
  exact (proj2 (proj2 (reconfigure_failure_modes _on_targets_changed ∅
                         env_restart_fails world_written
                         (or_intror eq_refl)))
           false [(PStr "app-a", app_a)] eq_refl eq_refl eq_refl eq_refl).
Defined.


(** X16 at a host where the unit cannot be enabled. *)
Lemma on_start_outcomes_witness :
  snd (_on_start host_cannot_enable ∅ env_down world_stopped)
  = with_status (with_trace world_stopped [EvSystemctl "enable"])
      (BlockedStatus
         "Failed to start: Command returned non-zero exit status 1.").
Proof.
  exact (proj1 (proj2 (on_start_outcomes host_cannot_enable ∅ env_down
                         world_stopped)) eq_refl).
Defined.

(** X17 at an active, installed unit. *)
Lemma on_stop_then_status_witness :
  bind (_on_stop host_ok) (fun _ => _on_update_status ∅) env_down world0
  = (Ok tt,
     with_status
       (with_active
          (with_trace world0 [EvSystemctl "stop"; EvSystemctl "is-active"])
          false)
       (BlockedStatus "Prometheus service not running")).
Proof.
  exact (proj2 (on_stop_then_status host_ok ∅ env_down world0) eq_refl
           eq_refl).
Defined.

(** X18 at a machine of an architecture without a release. *)
Lemma on_install_outcomes_witness :
  _on_install host_riscv ∅ env_down world_bare
  = (Raise RuntimeError,
     with_status world_bare
       (BlockedStatus
          "Installation failed: Unsupported architecture: riscv64")).
Proof.
  exact (proj1 (proj2 (proj2 (proj2 (on_install_outcomes host_riscv ∅
                                       env_down world_bare))))
           eq_refl eq_refl).
Defined.

(** X20 at a charm without the scrape library, on the install hook. *)
Lemma hooks_that_never_fail_witness :
  run_hook no_scrape_library host_ok ∅ Install env_down world_bare
  = (Ok tt,
     with_status world_bare
       (BlockedStatus "Missing prometheus_scrape library")).
Proof.
  exact (proj1 (proj2 (hooks_that_never_fail no_scrape_library host_ok ∅
                         Install env_down world_bare)) eq_refl).
Defined.

End MoreWitnesses.

(** ** Where the listen address goes *)

Section ListenAddressReach.
Import PrometheusConfig PrometheusInstaller Charm Lifecycle.

(** X21: the [listen-address] option reaches the unit file and the probe and
    nothing else: setting it to a string puts that string on the command line
    and makes the probe ask the port after its last colon, while the rendered
    document (the self-monitoring target included) and the URL given to
    Grafana stay what they were. *)
Theorem listen_address_reach (config : gmap string cfgval)
  (listen_address : string) (scrape_jobs : list (pyval * pyval))
  (bind_address : result string) :
  let config' := <["listen-address" := CStr listen_address]> config in
  nth_error (service_args config') 4
  = Some ("--web.listen-address=" ++ listen_address)%string
  /\ port_of (config_get config' "listen-address" (CStr "0.0.0.0:9090"))
     = port_of (CStr listen_address)
  /\ config_document config' scrape_jobs = config_document config scrape_jobs
  /\ prometheus_url config' bind_address = prometheus_url config bind_address.
Proof.
  cbv zeta.
  assert (Hset : config_get (<["listen-address" := CStr listen_address]> config)
                   "listen-address" (CStr "0.0.0.0:9090")
                 = CStr listen_address).
  { unfold config_get. by rewrite lookup_insert_eq. }
  assert (Hother : forall key dflt,
             key <> "listen-address" ->
             config_get (<["listen-address" := CStr listen_address]> config)
               key dflt
             = config_get config key dflt).
  { intros key dflt Hkey. unfold config_get.
    by rewrite lookup_insert_ne. }
  split.
  { unfold service_args. rewrite Hset.
    destruct (Py.ne_str _ "0"); destruct (cfg_truthy _);
      destruct (cfg_truthy _); reflexivity. }
  split; [by rewrite Hset|]. split.
  - unfold config_document, _build_global_config.
    by rewrite !Hother.
  - unfold prometheus_url. by rewrite Hother.
Qed.

End ListenAddressReach.
